(** * emotion-definer: the client-side aggregation core

    A shallow embedding of the four pieces of front-end logic that carry
    invariants: the diary/mood timeline merge (DiaryPage), the live heart
    rate window and its polling loop (RealtimePage), the prediction
    ranking (RealtimePage) and the chart adapters (StatsPage).

    Numbers.  A JavaScript number is an IEEE-754 double.  Where the code
    computes with a number or stores it (heart rate, percentages) it is a
    primitive [float].  Where the code only orders numbers through the
    sign of a difference it is an exact value: an epoch-millisecond
    timestamp is a [Z] (the result of [new Date(s).getTime()] on a valid
    ISO-8601 string), a probability is a [Q].  The values come out of a
    JSON body, so they are finite, and for finite doubles the sign of
    [b - a] is the sign of the exact difference. *)

From Stdlib Require Import List ZArith QArith Bool Lia Lqa String.
From Stdlib Require Import Sorting.Sorted Sorting.Permutation.
From Stdlib Require Import Floats.
From Stdlib Require Import DecimalString DecimalZ.
Import ListNotations.

Set Implicit Arguments.

(** ** The pieces of the JavaScript runtime the pages rely on *)

Module JS.

(** What [Array.prototype.sort] looks at in the value a comparator
    returns: whether it is greater than zero. *)
Class Number (N : Type) := positive : N -> bool.

#[export] Instance Z_Number : Number Z := fun v => (0 <? v)%Z.
#[export] Instance Q_Number : Number Q := fun v => negb (Qle_bool v 0).

Section Sort.
Context {A N : Type} `{Number N}.
Variable comparefn : A -> A -> N.

(** [x] stood before every element of [l] in the array: it moves behind
    exactly those [y] with [comparefn x y > 0]. *)
Fixpoint insert (x : A) (l : list A) : list A :=
  match l with
  | [] => [x]
  | y :: l' => if positive (comparefn x y) then y :: insert x l' else x :: l
  end.

(** [arr.sort(comparefn)].  The sort is stable (ECMAScript 2019), so for
    a consistent comparator the result is determined; inserting from the
    right computes it. *)
Definition Array_sort (l : list A) : list A := fold_right insert [] l.

(** [x] may stand before [y]: the comparator does not ask for a swap. *)
Definition in_order (x y : A) : Prop := positive (comparefn x y) = false.
End Sort.

(** [arr.slice(start, end)]; [None] is an omitted [end].  Negative
    indices count from the end of the array. *)
Definition relative_index (len i : Z) : Z :=
  if (i <? 0)%Z then Z.max (len + i) 0 else Z.min i len.

Definition Array_slice {A : Type} (start : Z) (end_ : option Z) (l : list A) : list A :=
  let len := Z.of_nat (List.length l) in
  let k := relative_index len start in
  let final := match end_ with None => len | Some e => relative_index len e end in
  firstn (Z.to_nat (final - k)) (skipn (Z.to_nat k) l).

(** Truthiness of a number: [0], [-0] and [NaN] are falsy. *)
Definition truthy (v : float) : bool :=
  negb (PrimFloat.eqb v 0 || PrimFloat.is_nan v).

(** Truthiness of an optional number ([undefined] and [null] are falsy). *)
Definition truthy_opt (o : option float) : bool :=
  match o with Some v => truthy v | None => false end.

End JS.

Import JS.

(** ** api/client.ts: the shapes of the data *)

Module Api.

Record DiaryEntry := {
  entry_id : Z;
  created_at : Z;
  content : string;
  entry_emotion : string;
  entry_intensity : float;
  sentiment_score : float
}.

Record EmotionLabel := {
  label_id : Z;
  label_device_id : option string;
  label_timestamp : Z;
  label_emotion : string;
  label_intensity : float;
  note : option string
}.

Record WatchData := {
  watch_id : Z;
  device_id : option string;
  watch_timestamp : Z;
  heart_rate : option float;
  hrv : option float;
  spo2 : option float;
  stress_level : option float;
  steps : option float;
  calories : option float;
  distance : option float;
  active_minutes : option float;
  sleep_hours : option float;
  sleep_quality : option float;
  body_battery : option float;
  skin_temperature : option float;
  respiratory_rate : option float
}.

(** A [Record<string, number>] as [Object.entries] enumerates it: the
    keys are emotion names, so the order is the insertion order. *)
Definition Dict (V : Type) := list (string * V).

Record EmotionPrediction := {
  emotion : string;
  confidence : Q;
  probabilities : Dict Q;
  prediction_timestamp : Z
}.

Record DailyStats := {
  date : Z;
  total_entries : Z;
  dominant_emotion : string;
  avg_intensity : float;
  emotion_distribution : Dict float
}.

Record WeeklyStats := {
  week_start : Z;
  week_end : Z;
  weekly_total_entries : Z;
  daily_stats : list DailyStats;
  emotion_trend : Dict (list float)
}.

Record MonthlyStats := {
  month : Z;
  year : Z;
  monthly_total_entries : Z;
  weekly_stats : list WeeklyStats;
  emotion_patterns : Dict float
}.

End Api.

Import Api.

(** ** pages/DiaryPage.tsx: the merged timeline *)

Module DiaryPage.

(** [{ type: 'diary', data, timestamp }] and [{ type: 'mood', ... }]. *)
Inductive Item :=
| diary (data : DiaryEntry)
| mood (data : EmotionLabel).

Definition timestamp (it : Item) : Z :=
  match it with
  | diary entry => created_at entry
  | mood label => label_timestamp label
  end.

Definition is_diary (it : Item) : bool :=
  match it with diary _ => true | mood _ => false end.

(** [(a, b) => new Date(b.timestamp).getTime() - new Date(a.timestamp).getTime()] *)
Definition newest_first (a b : Item) : Z := (timestamp b - timestamp a)%Z.

(** [[...A, ...B].sort(newest_first)] *)
Definition merge (A B : list Item) : list Item :=
  Array_sort newest_first (A ++ B).

Definition allEntries (entries : list DiaryEntry) (todayLabels : list EmotionLabel) : list Item :=
  merge (map diary entries) (map mood todayLabels).

End DiaryPage.

(** ** pages/RealtimePage.tsx: the live view *)

Module RealtimePage.

Record HrPoint := { time : string; value : float }.

(** The four [useState] slots of the component. *)
Record State := {
  latestData : option WatchData;
  prediction : option EmotionPrediction;
  hrHistory : list HrPoint;
  loading : bool
}.

Definition initial : State :=
  {| latestData := None; prediction := None; hrHistory := []; loading := true |}.

Definition setLatestData (v : option WatchData) (s : State) : State :=
  {| latestData := v; prediction := prediction s;
     hrHistory := hrHistory s; loading := loading s |}.

Definition setPrediction (v : option EmotionPrediction) (s : State) : State :=
  {| latestData := latestData s; prediction := v;
     hrHistory := hrHistory s; loading := loading s |}.

Definition setHrHistory (f : list HrPoint -> list HrPoint) (s : State) : State :=
  {| latestData := latestData s; prediction := prediction s;
     hrHistory := f (hrHistory s); loading := loading s |}.

Definition setLoading (v : bool) (s : State) : State :=
  {| latestData := latestData s; prediction := prediction s;
     hrHistory := hrHistory s; loading := v |}.

(** [latest?.heart_rate] *)
Definition optional_heart_rate (latest : option WatchData) : option float :=
  match latest with
  | Some d => heart_rate d
  | None => None
  end.

(** The updater handed to [setHrHistory]; [now] is
    [format(new Date(), 'HH:mm:ss')], read from the clock. *)
Definition appendHr (now : string) (v : float) (prev : list HrPoint) : list HrPoint :=
  let newHistory := prev ++ [{| time := now; value := v |}] in
  Array_slice (-20) None newHistory.

(** [loadData] from the point where [await Promise.all([...])] has
    delivered [[latest, pred]], through the [finally] block. *)
Definition loadData_fulfilled (now : string) (latest : option WatchData)
    (pred : EmotionPrediction) (s : State) : State :=
  let s := setLatestData latest s in
  let s := setPrediction (Some pred) s in
  let s :=
    match optional_heart_rate latest with
    | Some v => if truthy v then setHrHistory (appendHr now v) s else s
    | None => s
    end in
  setLoading false s.

(** [loadData] when one of the two requests fails: [catch], [finally]. *)
Definition loadData_rejected (s : State) : State := setLoading false s.

(** The window on its own: one poll result pushed into [hrHistory]. *)
Definition push (w : list HrPoint) (now : string) (latest : option WatchData) : list HrPoint :=
  match optional_heart_rate latest with
  | Some v => if truthy v then appendHr now v w else w
  | None => w
  end.

(** *** The polling loop
    [useEffect(() => { loadData(); const interval = setInterval(loadData,
    10000); return () => clearInterval(interval) }, [])] on the event
    loop.  A call of [loadData] suspends at its [await]; it is resumed by
    the event that settles its promise.  Between the [await] and the
    setters the source tests nothing (no generation tag, no mounted
    flag): a resumed call always calls the setters, and what they do is
    React's part.  The setters of a mounted view write its slots; those
    of a view that has been unmounted are not applied.  The dependency
    list is empty, so the cleanup runs when the view is unmounted; under
    StrictMode, in development, it also runs once right after the first
    run of the effect, which is then run again on the same view. *)
Inductive Event :=
| Mount      (* the route is entered: a new view, its state initial, runs its effect *)
| Tick       (* the interval fires *)
| Cleanup    (* the view is unmounted and its cleanup runs *)
| Fulfilled (call : nat) (now : string) (latest : option WatchData) (pred : EmotionPrediction)
| Rejected (call : nat)
| Replay.    (* StrictMode: the cleanup, then the effect again, on the mounted view *)

Record Loop := {
  page : State;
  timer : bool;          (* the interval is set and not cleared *)
  pending : list nat;    (* calls of loadData of the mounted view, suspended at the await *)
  detached : list nat;   (* calls still suspended whose view has been unmounted *)
  issued : nat           (* calls of loadData so far *)
}.

Definition start : Loop :=
  {| page := initial; timer := false; pending := []; detached := []; issued := 0 |}.

(** A call of [loadData] up to the [await]: both requests are sent. *)
Definition call_loadData (l : Loop) : Loop :=
  {| page := page l; timer := timer l;
     pending := pending l ++ [issued l]; detached := detached l;
     issued := S (issued l) |}.

(** [clearInterval(interval)], the cleanup of the effect. *)
Definition clearInterval (l : Loop) : Loop :=
  {| page := page l; timer := false; pending := pending l;
     detached := detached l; issued := issued l |}.

(** The body of the effect: [loadData(); setInterval(loadData, 10000)]. *)
Definition effect (l : Loop) : Loop :=
  let l := call_loadData l in
  {| page := page l; timer := true; pending := pending l;
     detached := detached l; issued := issued l |}.

(** The view goes away: its cleanup runs, and the calls it left
    suspended will resume without a view to write to. *)
Definition unmount (l : Loop) : Loop :=
  let l := clearInterval l in
  {| page := page l; timer := timer l; pending := [];
     detached := detached l ++ pending l; issued := issued l |}.

(** A new view: the [useState] initial values, then the effect. *)
Definition mount (l : Loop) : Loop :=
  effect {| page := initial; timer := timer l; pending := pending l;
            detached := detached l; issued := issued l |}.

(** The promise of [call] settles and [loadData] resumes as [k].  The
    setters it calls write the slots when the call belongs to the
    mounted view, and are not applied when its view is gone. *)
Definition settle (call : nat) (k : State -> State) (l : Loop) : Loop :=
  if existsb (Nat.eqb call) (pending l)
  then {| page := k (page l); timer := timer l;
          pending := filter (fun c => negb (Nat.eqb call c)) (pending l);
          detached := detached l; issued := issued l |}
  else {| page := page l; timer := timer l; pending := pending l;
          detached := filter (fun c => negb (Nat.eqb call c)) (detached l);
          issued := issued l |}.

Definition step (l : Loop) (e : Event) : Loop :=
  match e with
  | Mount => mount (unmount l)
  | Tick => if timer l then call_loadData l else l
  | Cleanup => unmount l
  | Fulfilled call now latest pred => settle call (loadData_fulfilled now latest pred) l
  | Rejected call => settle call loadData_rejected l
  | Replay => if timer l then effect (clearInterval l) else l
  end.

Definition run (l : Loop) (es : list Event) : Loop := fold_left step es l.

(** *** The probabilities shown under the prediction *)

(** [([, a], [, b]) => b - a] *)
Definition highest_first (x y : string * Q) : Q := snd y - snd x.

(** [Object.entries(probabilities).sort(highest_first).slice(0, k)] *)
Definition rankedPredictions (k : Z) (probabilities : Dict Q) : list (string * Q) :=
  Array_slice 0 (Some k) (Array_sort highest_first probabilities).

(** The page shows three: [.slice(0, 3)]. *)
Definition shownProbabilities (p : EmotionPrediction) : list (string * Q) :=
  rankedPredictions 3 (probabilities p).

End RealtimePage.

(** ** pages/StatsPage.tsx: the chart adapters *)

Module StatsPage.

Definition COLORS : list string :=
  ["#007AFF"; "#34C759"; "#FF2D55"; "#AF52DE"; "#FF9500"; "#FFCC00"]%string.

Record DailyRow := { slice_emotion : string; count : float }.
Record MonthlyRow := { bar_emotion : string; percentage : float }.

Definition prepareDailyChartData (dailyStats : option DailyStats) : list DailyRow :=
  match dailyStats with
  | None => []
  | Some stats =>
      map (fun '(emotion, count) => {| slice_emotion := emotion; count := count |})
          (emotion_distribution stats)
  end.

Definition prepareMonthlyChartData (monthlyStats : option MonthlyStats) : list MonthlyRow :=
  match monthlyStats with
  | None => []
  | Some stats =>
      map (fun '(emotion, percentage) =>
             {| bar_emotion := emotion; percentage := (percentage * 100)%float |})
          (emotion_patterns stats)
  end.

(** [COLORS[index % COLORS.length]] *)
Definition fill (index : nat) : string :=
  nth (index mod List.length COLORS) COLORS ""%string.

(** [rows.map((entry, index) => <Cell fill={...} />)]: each row with the
    fill of its cell. *)
Definition cells {R : Type} (rows : list R) : list (R * string) :=
  combine rows (map fill (seq 0 (List.length rows))).

Definition dailyCells (dailyStats : option DailyStats) : list (DailyRow * string) :=
  cells (prepareDailyChartData dailyStats).

Definition monthlyCells (monthlyStats : option MonthlyStats) : list (MonthlyRow * string) :=
  cells (prepareMonthlyChartData monthlyStats).

(** The fill of the cell drawn for [emotion], when the chart has one. *)
Definition dailyColor (dailyStats : option DailyStats) (emotion : string) : option string :=
  option_map snd
    (find (fun c => String.eqb (slice_emotion (fst c)) emotion) (dailyCells dailyStats)).

Definition monthlyColor (monthlyStats : option MonthlyStats) (emotion : string) : option string :=
  option_map snd
    (find (fun c => String.eqb (bar_emotion (fst c)) emotion) (monthlyCells monthlyStats)).

End StatsPage.

(** * Predicates of the statements, and sample data *)

Module Timeline.
Import DiaryPage.

(** Newest first, and on equal instants no mood label before a diary
    entry. *)
Definition tie_rule (a b : Item) : Prop :=
  (timestamp b <= timestamp a)%Z /\
  (timestamp a = timestamp b -> is_diary b = true -> is_diary a = true).

(** No mood label stands before a diary entry. *)
Definition diaries_first (l : list Item) : Prop :=
  StronglySorted (fun a b => is_diary b = true -> is_diary a = true) l.

Definition entry_at (t : Z) : DiaryEntry :=
  {| entry_id := 1; created_at := t; content := "walked home";
     entry_emotion := "calm"; entry_intensity := 0.5; sentiment_score := 0.25 |}.

Definition label_at (t : Z) : EmotionLabel :=
  {| label_id := 1; label_device_id := None; label_timestamp := t;
     label_emotion := "joy"; label_intensity := 0.5; note := None |}.

End Timeline.

Module Ranking.

(** The entries of a distribution whose probability is [p]. *)
Definition has_probability (p : Q) (e : string * Q) : bool := Qeq_bool (snd e) p.

(** [{a: 0.5, b: 0.5, c: 0.1}], keys inserted in this order. *)
Definition tied_distribution : Dict Q :=
  [("a"%string, 0.5%Q); ("b"%string, 0.5%Q); ("c"%string, 0.1%Q)].

End Ranking.

Module Window.
Import RealtimePage.

(** The window after a run of poll results, oldest poll first. *)
Definition pushes (w : list HrPoint) (polls : list (string * option WatchData)) : list HrPoint :=
  fold_left (fun w poll => push w (fst poll) (snd poll)) polls w.



(** A watch record that reports nothing but, possibly, a heart rate. *)
Definition reading (hr : option float) : WatchData :=
  {| watch_id := 1; device_id := None; watch_timestamp := 0; heart_rate := hr;
     hrv := None; spo2 := None; stress_level := None; steps := None;
     calories := None; distance := None; active_minutes := None;
     sleep_hours := None; sleep_quality := None; body_battery := None;
     skin_temperature := None; respiratory_rate := None |}.

Definition poll (p : string * float) : string * option WatchData :=
  (fst p, Some (reading (Some (snd p)))).

(** Twenty-one polls, ten seconds apart. *)
Definition twenty_one_polls : list (string * option WatchData) :=
  map poll
  [("12:00:00"%string, 60%float); ("12:00:10"%string, 61%float);
   ("12:00:20"%string, 62%float); ("12:00:30"%string, 63%float);
   ("12:00:40"%string, 64%float); ("12:00:50"%string, 65%float);
   ("12:01:00"%string, 66%float); ("12:01:10"%string, 67%float);
   ("12:01:20"%string, 68%float); ("12:01:30"%string, 69%float);
   ("12:01:40"%string, 70%float); ("12:01:50"%string, 71%float);
   ("12:02:00"%string, 72%float); ("12:02:10"%string, 73%float);
   ("12:02:20"%string, 74%float); ("12:02:30"%string, 75%float);
   ("12:02:40"%string, 76%float); ("12:02:50"%string, 77%float);
   ("12:03:00"%string, 78%float); ("12:03:10"%string, 79%float);
   ("12:03:20"%string, 80%float)].

Definition calm_prediction : EmotionPrediction :=
  {| emotion := "calm"; confidence := 0.5;
     probabilities := [("calm"%string, 0.5%Q); ("joy"%string, 0.3%Q)];
     prediction_timestamp := 0 |}.

Definition is_Mount (e : Event) : bool :=
  match e with Mount => true | _ => false end.

End Window.

Module Charts.
Import StatsPage.

(** The position of [emotion] among the keys of a mapping. *)
Fixpoint index_of {V : Type} (emotion : string) (d : Dict V) : option nat :=
  match d with
  | [] => None
  | (key, _) :: rest =>
      if String.eqb key emotion then Some 0%nat
      else option_map S (index_of emotion rest)
  end.

Definition day_with (distribution : Dict float) : DailyStats :=
  {| date := 0; total_entries := 3; dominant_emotion := "joy";
     avg_intensity := 0.5; emotion_distribution := distribution |}.

Definition month_with (patterns : Dict float) : MonthlyStats :=
  {| month := 5; year := 2024; monthly_total_entries := 4;
     weekly_stats := []; emotion_patterns := patterns |}.

End Charts.

(** * The rest of the pages *)

(** ** pages/DiaryPage.tsx: the keys of the feed and the two forms *)

Module DiaryForms.
Import DiaryPage.

(** [`${n}`] for an integer [n]: its decimal digits, with a minus sign
    when negative (ids stay far below 10^21, where JavaScript would
    switch to exponent notation). *)
Definition Number_toString (n : Z) : string := NilEmpty.string_of_int (Z.to_int n).

(** [key={`${item.type}-${item.data.id}`}] *)
Definition key (it : Item) : string :=
  match it with
  | diary entry => "diary-" ++ Number_toString (entry_id entry)
  | mood label => "mood-" ++ Number_toString (label_id label)
  end.

(** Truthiness of a string: only the empty string is falsy. *)
Definition nonempty (s : string) : bool := negb (String.eqb s "").

Record State := {
  entries : list DiaryEntry;
  inputValue : string;
  loading : bool;
  selectedEmotion : option string;
  intensity : float;
  note : string;
  moodLoading : bool;
  todayLabels : list EmotionLabel
}.

Definition initial : State :=
  {| entries := []; inputValue := ""; loading := false; selectedEmotion := None;
     intensity := 5; note := ""; moodLoading := false; todayLabels := [] |}.

Definition setEntries (v : list DiaryEntry) (s : State) : State :=
  {| entries := v; inputValue := inputValue s; loading := loading s;
     selectedEmotion := selectedEmotion s; intensity := intensity s;
     note := note s; moodLoading := moodLoading s; todayLabels := todayLabels s |}.

Definition setInputValue (v : string) (s : State) : State :=
  {| entries := entries s; inputValue := v; loading := loading s;
     selectedEmotion := selectedEmotion s; intensity := intensity s;
     note := note s; moodLoading := moodLoading s; todayLabels := todayLabels s |}.

Definition setLoading (v : bool) (s : State) : State :=
  {| entries := entries s; inputValue := inputValue s; loading := v;
     selectedEmotion := selectedEmotion s; intensity := intensity s;
     note := note s; moodLoading := moodLoading s; todayLabels := todayLabels s |}.

Definition setSelectedEmotion (v : option string) (s : State) : State :=
  {| entries := entries s; inputValue := inputValue s; loading := loading s;
     selectedEmotion := v; intensity := intensity s;
     note := note s; moodLoading := moodLoading s; todayLabels := todayLabels s |}.

Definition setIntensity (v : float) (s : State) : State :=
  {| entries := entries s; inputValue := inputValue s; loading := loading s;
     selectedEmotion := selectedEmotion s; intensity := v;
     note := note s; moodLoading := moodLoading s; todayLabels := todayLabels s |}.

Definition setNote (v : string) (s : State) : State :=
  {| entries := entries s; inputValue := inputValue s; loading := loading s;
     selectedEmotion := selectedEmotion s; intensity := intensity s;
     note := v; moodLoading := moodLoading s; todayLabels := todayLabels s |}.

Definition setMoodLoading (v : bool) (s : State) : State :=
  {| entries := entries s; inputValue := inputValue s; loading := loading s;
     selectedEmotion := selectedEmotion s; intensity := intensity s;
     note := note s; moodLoading := v; todayLabels := todayLabels s |}.

Definition setTodayLabels (v : list EmotionLabel) (s : State) : State :=
  {| entries := entries s; inputValue := inputValue s; loading := loading s;
     selectedEmotion := selectedEmotion s; intensity := intensity s;
     note := note s; moodLoading := moodLoading s; todayLabels := v |}.

(** The body sent by [emotionApi.createEmotionLabel]. *)
Record LabelRequest := {
  request_emotion : string;
  request_intensity : float;
  request_note : option string
}.

Section Handlers.
(** [String.prototype.trim]. *)
Variable trim : string -> string.

(** [handleDiarySubmit] up to its [await]: the content handed to
    [diaryApi.createEntry], if a request is made at all. *)
Definition handleDiarySubmit_begin (s : State) : option string * State :=
  if negb (nonempty (trim (inputValue s))) || loading s then (None, s)
  else (Some (trim (inputValue s)), setLoading true s).

(** [handleDiarySubmit] resumed with the created entry.  [captured] is
    the [entries] of the render in which the handler was made. *)
Definition handleDiarySubmit_created (captured : list DiaryEntry)
    (newEntry : DiaryEntry) (s : State) : State :=
  let s := setEntries (newEntry :: captured) s in
  let s := setInputValue "" s in
  setLoading false s.

(** [handleDiarySubmit] when the request fails: [alert], [finally]. *)
Definition handleDiarySubmit_failed (s : State) : State := setLoading false s.

(** [handleMoodSubmit] up to its first [await]. *)
Definition handleMoodSubmit_begin (s : State) : option LabelRequest * State :=
  match selectedEmotion s with
  | Some emotion =>
      if negb (nonempty emotion) || moodLoading s then (None, s)
      else
        (Some {| request_emotion := emotion;
                 request_intensity := (intensity s / 10)%float;
                 request_note :=
                   if nonempty (trim (note s)) then Some (trim (note s)) else None |},
         setMoodLoading true s)
  | None => (None, s)
  end.

(** [handleMoodSubmit] resumed after the label was created: the form is
    reset before today's labels are fetched again. *)
Definition handleMoodSubmit_created (s : State) : State :=
  let s := setSelectedEmotion None s in
  let s := setIntensity 5 s in
  setNote "" s.

(** [loadTodayLabels] once its request has settled; [None] is a failure,
    which the function catches itself. *)
Definition loadTodayLabels_settled (labels : option (list EmotionLabel)) (s : State) : State :=
  match labels with
  | Some labels => setTodayLabels labels s
  | None => s
  end.

(** The [finally] block of [handleMoodSubmit]. *)
Definition handleMoodSubmit_finally (s : State) : State := setMoodLoading false s.

(** A whole successful submission, from the created label on. *)
Definition handleMoodSubmit_done (labels : option (list EmotionLabel)) (s : State) : State :=
  handleMoodSubmit_finally (loadTodayLabels_settled labels (handleMoodSubmit_created s)).

End Handlers.

Definition entry_with (id t : Z) : DiaryEntry :=
  {| entry_id := id; created_at := t; content := "walked home";
     entry_emotion := "calm"; entry_intensity := 0.5; sentiment_score := 0.25 |}.

Definition label_with (id t : Z) : EmotionLabel :=
  {| label_id := id; label_device_id := None; label_timestamp := t;
     label_emotion := "joy"; label_intensity := 0.5; Api.note := None |}.

(** The positions of the intensity slider: its range is 1 to 10. *)
Definition slider_positions : list float := [1; 2; 3; 4; 5; 6; 7; 8; 9; 10]%float.

End DiaryForms.

(** ** pages/RealtimePage.tsx: what the statements about runs speak of *)

Module Live.
Import RealtimePage Window.

(** The points of the polls whose heart rate passes the guard, in the
    order of the polls. *)
Definition present_points (polls : list (string * option WatchData)) : list HrPoint :=
  flat_map
    (fun poll =>
       match optional_heart_rate (snd poll) with
       | Some v => if truthy v then [{| time := fst poll; value := v |}] else []
       | None => []
       end)
    polls.

(** The events of a poll that brings nothing: the interval fires, or a
    fetch fails. *)
Definition is_Tick_or_Rejected (e : Event) : bool :=
  match e with Tick | Rejected _ => true | _ => false end.

End Live.

(** ** pages/StatsPage.tsx: the weekly chart *)

Module WeeklyChart.
Import StatsPage.

(** What a field of a chart row holds: a string, a number, or the
    server's date string, kept as its instant. *)
Inductive Field :=
| Text (s : string)
| Num (v : float)
| Instant (t : Z).

(** An object literal, its keys in creation order. *)
Definition Row := list (string * Field).

(** [row[k] = v]: an existing key keeps its place. *)
Fixpoint set_field (k : string) (v : Field) (row : Row) : Row :=
  match row with
  | [] => [(k, v)]
  | (k', v') :: rest =>
      if String.eqb k' k then (k', v) :: rest else (k', v') :: set_field k v rest
  end.

(** [row[k]]; [None] is [undefined]. *)
Definition get_field (k : string) (row : Row) : option Field :=
  option_map snd (find (fun kv => String.eqb (fst kv) k) row).

(** [d[k]] for a mapping of the API. *)
Definition lookup {V : Type} (k : string) (d : Dict V) : option V :=
  option_map snd (find (fun kv => String.eqb (fst kv) k) d).

(** [{ ...row, ...distribution }] *)
Definition spread (distribution : Dict float) (row : Row) : Row :=
  fold_left (fun row kv => set_field (fst kv) (Num (snd kv)) row) distribution row.

Section Rows.
(** [format(new Date(date), 'EEE')], the abbreviated weekday. *)
Variable format_EEE : Z -> string.

Definition prepareWeeklyChartData (weeklyStats : option WeeklyStats) : list Row :=
  match weeklyStats with
  | None => []
  | Some stats =>
      map (fun stat =>
             spread (emotion_distribution stat)
               [("day"%string, Text (format_EEE (date stat)));
                ("date"%string, Instant (date stat))])
          (daily_stats stats)
  end.

End Rows.

(** The [Line] elements: the data key and the stroke of each. *)
Definition weeklyLines (weeklyStats : WeeklyStats) : list (string * string) :=
  cells (map fst (emotion_trend weeklyStats)).

Definition day_on (t : Z) (distribution : Dict float) : DailyStats :=
  {| date := t; total_entries := 3; dominant_emotion := "joy";
     avg_intensity := 0.5; emotion_distribution := distribution |}.

Definition week_of (days : list DailyStats) : WeeklyStats :=
  {| week_start := 0; week_end := 6; weekly_total_entries := 6;
     daily_stats := days; emotion_trend := [] |}.

End WeeklyChart.

(** ** pages/HomePage.tsx: the summary *)

Module HomePage.

Record HealthData := {
  health_id : Z;
  health_timestamp : Z;
  health_heart_rate : option float;
  health_steps : option float;
  health_sleep_hours : option float;
  health_calories : option float
}.

Record State := {
  dailyStats : option DailyStats;
  healthData : list HealthData;
  loading : bool
}.

Definition initial : State :=
  {| dailyStats := None; healthData := []; loading := true |}.

(** [loadData] from the point where [await Promise.all([...])] has
    delivered [[stats, health]], through the [finally] block. *)
Definition loadData_fulfilled (stats : DailyStats) (health : list HealthData)
    (s : State) : State :=
  {| dailyStats := Some stats;
     healthData := Array_slice 0 (Some 5%Z) health;
     loading := false |}.

Definition loadData_rejected (s : State) : State :=
  {| dailyStats := dailyStats s; healthData := healthData s; loading := false |}.

Definition measurement (id : Z) : HealthData :=
  {| health_id := id; health_timestamp := id; health_heart_rate := Some 60%float;
     health_steps := None; health_sleep_hours := None; health_calories := None |}.

End HomePage.

(** ** pages/WatchPage.tsx: polling that restarts with the period *)

Module WatchPage.

Inductive Period := day | week | month.

Definition Period_eqb (p q : Period) : bool :=
  match p, q with
  | day, day | week, week | month, month => true
  | _, _ => false
  end.

Record TrendPoint := { trend_time : Z; trend_value : float }.
Record ActivityPoint := { activity_time : Z; activity_steps : float; activity_calories : float }.

Record WatchAnalytics := {
  period_start : Z;
  period_end : Z;
  total_records : float;
  avg_heart_rate : option float;
  min_heart_rate : option float;
  max_heart_rate : option float;
  avg_hrv : option float;
  avg_spo2 : option float;
  avg_stress_level : option float;
  total_steps : float;
  total_calories : float;
  total_distance : float;
  total_active_minutes : float;
  avg_sleep_hours : option float;
  avg_sleep_quality : option float;
  avg_body_battery : option float;
  heart_rate_trend : list TrendPoint;
  stress_trend : list TrendPoint;
  activity_trend : list ActivityPoint
}.

Record State := {
  analytics : option WatchAnalytics;
  latestData : option WatchData;
  period : Period;
  loading : bool
}.

Definition initial : State :=
  {| analytics := None; latestData := None; period := day; loading := true |}.

(** The page on the event loop.  An interval is listed with the period
    that the [loadData] handed to [setInterval] closes over. *)
Record Loop := {
  page : State;
  intervals : list (nat * Period);  (* set and not cleared *)
  cleanup : option nat;             (* the interval the effect's cleanup clears *)
  timers : nat;                     (* intervals created so far *)
  pending : list (nat * Period);    (* calls of loadData suspended at the await *)
  issued : nat                      (* calls of loadData so far *)
}.

(** A call of the [loadData] of a render with period [p], up to the
    [await]: [setLoading(true)], then both requests are sent. *)
Definition call_loadData (p : Period) (l : Loop) : Loop :=
  {| page := {| analytics := analytics (page l); latestData := latestData (page l);
                period := period (page l); loading := true |};
     intervals := intervals l; cleanup := cleanup l; timers := timers l;
     pending := pending l ++ [(issued l, p)]; issued := S (issued l) |}.

(** The effect body: [loadData(); const interval = setInterval(loadData,
    30000)], returning the cleanup for that interval. *)
Definition run_effect (l : Loop) : Loop :=
  let p := period (page l) in
  let l := call_loadData p l in
  {| page := page l; intervals := intervals l ++ [(timers l, p)];
     cleanup := Some (timers l); timers := S (timers l);
     pending := pending l; issued := issued l |}.

(** [() => clearInterval(interval)] *)
Definition run_cleanup (l : Loop) : Loop :=
  match cleanup l with
  | Some interval =>
      {| page := page l;
         intervals := filter (fun i => negb (Nat.eqb (fst i) interval)) (intervals l);
         cleanup := None; timers := timers l;
         pending := pending l; issued := issued l |}
  | None => l
  end.

Definition setPeriod (p : Period) (l : Loop) : Loop :=
  {| page := {| analytics := analytics (page l); latestData := latestData (page l);
                period := p; loading := loading (page l) |};
     intervals := intervals l; cleanup := cleanup l; timers := timers l;
     pending := pending l; issued := issued l |}.

Definition settle (call : nat) (k : State -> State) (l : Loop) : Loop :=
  if existsb (fun c => Nat.eqb (fst c) call) (pending l)
  then {| page := k (page l); intervals := intervals l; cleanup := cleanup l;
          timers := timers l;
          pending := filter (fun c => negb (Nat.eqb (fst c) call)) (pending l);
          issued := issued l |}
  else l.

Definition loadData_fulfilled (analyticsData : WatchAnalytics)
    (latest : option WatchData) (s : State) : State :=
  {| analytics := Some analyticsData; latestData := latest;
     period := period s; loading := false |}.

Definition loadData_rejected (s : State) : State :=
  {| analytics := analytics s; latestData := latestData s;
     period := period s; loading := false |}.

(** What happens to the mounted page.  Choosing the period already
    selected does not render again; choosing another one renders, runs
    the cleanup of the previous effect and then the effect anew, its
    dependency [period] having changed. *)
Inductive Event :=
| ChoosePeriod (p : Period)
| Tick (interval : nat)
| Unmount
| Fulfilled (call : nat) (analyticsData : WatchAnalytics) (latest : option WatchData)
| Rejected (call : nat).

Definition step (l : Loop) (e : Event) : Loop :=
  match e with
  | ChoosePeriod p =>
      match cleanup l with
      | Some _ =>
          if Period_eqb p (period (page l)) then l
          else run_effect (run_cleanup (setPeriod p l))
      | None => l
      end
  | Tick interval =>
      match find (fun i => Nat.eqb (fst i) interval) (intervals l) with
      | Some (_, p) => call_loadData p l
      | None => l
      end
  | Unmount => run_cleanup l
  | Fulfilled call analyticsData latest =>
      settle call (loadData_fulfilled analyticsData latest) l
  | Rejected call => settle call loadData_rejected l
  end.

(** The page just mounted: the effect has run once. *)
Definition mounted : Loop :=
  run_effect {| page := initial; intervals := []; cleanup := None; timers := 0%nat;
                pending := []; issued := 0%nat |}.

Definition run (l : Loop) (es : list Event) : Loop := fold_left step es l.

End WatchPage.

(** ** components/EmotionBadge.tsx: the intensity indicator *)

Module EmotionBadge.

(** The indices [Array.from({ length: 5 })] is mapped over. *)
Definition bar_indices : list float := [0; 1; 2; 3; 4]%float.

Section Badge.
(** [Math.round]. *)
Variable Math_round : float -> float.

(** [intensity ? Math.round(intensity * 5) : 0] *)
Definition intensityBars (intensity : option float) : float :=
  match intensity with
  | Some v => if truthy v then Math_round (v * 5)%float else 0%float
  | None => 0%float
  end.

(** The indicator, when [intensity !== undefined]: for each of the five
    bars, whether it is drawn active ([i < intensityBars]). *)
Definition indicator (intensity : option float) : option (list bool) :=
  match intensity with
  | Some _ =>
      Some (map (fun i => PrimFloat.ltb i (intensityBars intensity)) bar_indices)
  | None => None
  end.

End Badge.

End EmotionBadge.

(** * Properties *)

(** ** Lists *)

Lemma StronglySorted_weaken {A : Type} (R R' : A -> A -> Prop) (l : list A) :
  (forall x y, R x y -> R' x y) -> StronglySorted R l -> StronglySorted R' l.
Proof.
  intros Himp Hs. induction Hs as [|x l Hs IH Hx]; constructor; auto.
  eapply Forall_impl; [|exact Hx]. auto.
Qed.

Lemma StronglySorted_nth_error {A : Type} (R : A -> A -> Prop) (l : list A) :
  StronglySorted R l ->
  forall i j a b, (i < j)%nat ->
    nth_error l i = Some a -> nth_error l j = Some b -> R a b.
Proof.
  induction 1 as [|x l Hs IH Hx]; intros i j a b Hij Hi Hj.
  - destruct i; discriminate.
  - destruct j as [|j]; [lia|]. simpl in Hj.
    destruct i as [|i]; simpl in Hi.
    + injection Hi as <-. rewrite Forall_forall in Hx.
      apply Hx. eapply nth_error_In; eassumption.
    + apply (IH i j); auto. lia.
Qed.

(** ** [Array.prototype.sort] *)

Section SortFacts.
Context {A N : Type} `{Number N}.
Variable comparefn : A -> A -> N.

Lemma insert_perm (x : A) (l : list A) :
  Permutation (insert comparefn x l) (x :: l).
Proof.
  induction l as [|y l IH]; simpl; [reflexivity|].
  destruct (positive (comparefn x y)); [|reflexivity].
  rewrite IH. apply perm_swap.
Qed.

Lemma Array_sort_perm (l : list A) : Permutation (Array_sort comparefn l) l.
Proof.
  induction l as [|x l IH]; simpl; [reflexivity|].
  rewrite insert_perm. now constructor.
Qed.

Lemma Array_sort_In (l : list A) (x : A) : In x (Array_sort comparefn l) <-> In x l.
Proof.
  split; apply Permutation_in; [|symmetry]; apply Array_sort_perm.
Qed.

(** Stability: a class of elements that the comparator never moves past
    one another keeps its order. *)
Lemma insert_filter (f : A -> bool) (x : A) (l : list A) :
  (forall y, f x = true -> positive (comparefn x y) = true -> f y = false) ->
  filter f (insert comparefn x l) = filter f (x :: l).
Proof.
  intros Hf. induction l as [|y l IH]; [reflexivity|].
  simpl insert. destruct (positive (comparefn x y)) eqn:Hxy; [|reflexivity].
  simpl in *. rewrite IH.
  destruct (f x) eqn:Hx; [|reflexivity].
  now rewrite (Hf y eq_refl Hxy).
Qed.

Lemma Array_sort_filter (f : A -> bool) (l : list A) :
  (forall x y, f x = true -> positive (comparefn x y) = true -> f y = false) ->
  filter f (Array_sort comparefn l) = filter f l.
Proof.
  intros Hf. induction l as [|x l IH]; [reflexivity|].
  simpl Array_sort. rewrite insert_filter by (apply Hf).
  simpl. now rewrite IH.
Qed.

(** A consistent comparator. *)
Hypothesis comparefn_asym :
  forall x y, positive (comparefn x y) = true -> in_order comparefn y x.
Hypothesis comparefn_trans :
  forall x y z,
    in_order comparefn x y -> in_order comparefn y z -> in_order comparefn x z.

Lemma insert_sorted (x : A) (l : list A) :
  StronglySorted (in_order comparefn) l ->
  StronglySorted (in_order comparefn) (insert comparefn x l).
Proof.
  induction 1 as [|y l Hs IH Hy]; simpl.
  - repeat constructor.
  - destruct (positive (comparefn x y)) eqn:Hxy.
    + constructor; [exact IH|].
      rewrite Forall_forall in *. intros z Hz.
      apply (Permutation_in _ (insert_perm x l)) in Hz.
      destruct Hz as [<-|Hz]; auto.
    + constructor; [now constructor|].
      constructor; [exact Hxy|].
      eapply Forall_impl; [|exact Hy].
      intros z Hyz. now apply comparefn_trans with y.
Qed.

Lemma Array_sort_sorted (l : list A) :
  StronglySorted (in_order comparefn) (Array_sort comparefn l).
Proof.
  induction l as [|x l IH]; simpl; [constructor|]. now apply insert_sorted.
Qed.

End SortFacts.

(** ** [Array.prototype.slice] *)

Lemma Array_slice_prefix {A : Type} (k : nat) (l : list A) :
  Array_slice 0 (Some (Z.of_nat k)) l = firstn k l.
Proof.
  unfold Array_slice, relative_index. simpl.
  destruct (Z.of_nat k <? 0)%Z eqn:Hk; [apply Z.ltb_lt in Hk; lia|].
  rewrite (Z.min_l 0) by lia. rewrite Z.sub_0_r. simpl skipn.
  destruct (Nat.le_gt_cases k (List.length l)) as [Hle|Hgt].
  - rewrite Z.min_l by lia. now rewrite Nat2Z.id.
  - rewrite Z.min_r by lia. rewrite Nat2Z.id.
    rewrite firstn_all. symmetry. apply firstn_all2. lia.
Qed.

Lemma Array_slice_last20 {A : Type} (l : list A) :
  Array_slice (-20) None l = skipn (List.length l - 20) l.
Proof.
  unfold Array_slice, relative_index.
  change (-20 <? 0)%Z with true. cbv iota.
  replace (Z.to_nat (Z.max (Z.of_nat (List.length l) + -20) 0))
    with (List.length l - 20)%nat by lia.
  apply firstn_all2. rewrite length_skipn. lia.
Qed.

(** ** The merged timeline (DiaryPage) *)

Section TimelineFacts.
Import DiaryPage Timeline.

Lemma newest_first_in_order (x y : Item) :
  in_order newest_first x y <-> (timestamp y <= timestamp x)%Z.
Proof.
  unfold in_order, newest_first, positive, Z_Number.
  rewrite Z.ltb_ge. lia.
Qed.

Lemma newest_first_swap (x y : Item) :
  positive (newest_first x y) = true <-> (timestamp x < timestamp y)%Z.
Proof.
  unfold newest_first, positive, Z_Number. rewrite Z.ltb_lt. lia.
Qed.

Lemma merge_perm (A B : list Item) : Permutation (merge A B) (A ++ B).
Proof. apply Array_sort_perm. Qed.

Lemma merge_sorted (A B : list Item) :
  StronglySorted (fun a b => (timestamp b <= timestamp a)%Z) (merge A B).
Proof.
  unfold merge.
  apply StronglySorted_weaken with (R := in_order newest_first).
  - intros x y. apply newest_first_in_order.
  - apply Array_sort_sorted.
    + intros x y Hxy. apply newest_first_swap in Hxy.
      apply newest_first_in_order. lia.
    + intros x y z Hxy Hyz.
      apply newest_first_in_order in Hxy, Hyz.
      apply newest_first_in_order. lia.
Qed.

Lemma insert_tie_rule (x : Item) (l : list Item) :
  StronglySorted tie_rule l ->
  Forall (fun y => is_diary y = true -> is_diary x = true) l ->
  StronglySorted tie_rule (insert newest_first x l).
Proof.
  induction 1 as [|y l Hs IH Hy]; intros Hx; simpl.
  - repeat constructor.
  - inversion Hx as [|? ? Hxy Hxl]; subst.
    destruct (positive (newest_first x y)) eqn:Hswap.
    + apply newest_first_swap in Hswap.
      constructor; [now apply IH|].
      rewrite Forall_forall in *. intros z Hz.
      apply (Permutation_in _ (insert_perm newest_first x l)) in Hz.
      destruct Hz as [<-|Hz]; [|now apply Hy].
      split; [lia|intros Heq; lia].
    + assert (Hle : (timestamp y <= timestamp x)%Z).
      { apply newest_first_in_order. exact Hswap. }
      constructor; [now constructor|].
      constructor; [split; [exact Hle|auto]|].
      rewrite Forall_forall in *. intros z Hz.
      destruct (Hy z Hz) as [Hzy _].
      split; [lia|]. intros _. now apply Hxl.
Qed.

Lemma Array_sort_tie_rule (l : list Item) :
  diaries_first l -> StronglySorted tie_rule (Array_sort newest_first l).
Proof.
  induction 1 as [|x l Hs IH Hx]; simpl; [constructor|].
  apply insert_tie_rule; [exact IH|].
  rewrite Forall_forall in *. intros y Hy.
  apply Hx. now apply (Array_sort_In newest_first l y).
Qed.

Lemma spread_diaries_first (entries : list DiaryEntry) (todayLabels : list EmotionLabel) :
  diaries_first (map diary entries ++ map mood todayLabels).
Proof.
  unfold diaries_first. induction entries as [|e entries IH]; simpl.
  - induction todayLabels as [|m labels IHl]; simpl; constructor; auto.
    apply Forall_forall. intros y Hy. apply in_map_iff in Hy.
    destruct Hy as [? [<- _]]. discriminate.
  - constructor; [exact IH|]. apply Forall_forall. reflexivity.
Qed.

(** When the instants of [x] and [y] differ, the order in which they are
    inserted does not matter. *)
Lemma insert_newest_first_comm (x y : Item) (l : list Item) :
  timestamp x <> timestamp y ->
  insert newest_first x (insert newest_first y l) =
  insert newest_first y (insert newest_first x l).
Proof.
  intros Hne. induction l as [|z l IH]; simpl.
  - destruct (positive (newest_first x y)) eqn:Hxy,
             (positive (newest_first y x)) eqn:Hyx; try reflexivity;
      unfold newest_first, positive, Z_Number in *;
      rewrite ?Z.ltb_lt, ?Z.ltb_ge in *; lia.
  - destruct (positive (newest_first x z)) eqn:Hxz,
             (positive (newest_first y z)) eqn:Hyz; simpl;
      rewrite ?Hxz, ?Hyz.
    + now rewrite IH.
    + destruct (positive (newest_first x y)) eqn:Hxy; simpl; rewrite ?Hxz;
        [reflexivity|].
      unfold newest_first, positive, Z_Number in *;
        rewrite ?Z.ltb_lt, ?Z.ltb_ge in *; lia.
    + destruct (positive (newest_first y x)) eqn:Hyx; simpl; rewrite ?Hyz;
        [reflexivity|].
      unfold newest_first, positive, Z_Number in *;
        rewrite ?Z.ltb_lt, ?Z.ltb_ge in *; lia.
    + destruct (positive (newest_first x y)) eqn:Hxy,
               (positive (newest_first y x)) eqn:Hyx; simpl;
        rewrite ?Hxz, ?Hyz; try reflexivity;
        unfold newest_first, positive, Z_Number in *;
        rewrite ?Z.ltb_lt, ?Z.ltb_ge in *; lia.
Qed.

Lemma Array_sort_move_in (a : Item) (A B : list Item) :
  (forall b, In b B -> timestamp a <> timestamp b) ->
  Array_sort newest_first (B ++ a :: A) =
  insert newest_first a (Array_sort newest_first (B ++ A)).
Proof.
  induction B as [|b B IH]; intros Hne; simpl; [reflexivity|].
  rewrite IH by (intros; apply Hne; now right).
  apply insert_newest_first_comm.
  intros Heq. apply (Hne b); [now left|congruence].
Qed.

End TimelineFacts.

Section TimelineClaims.
Import DiaryPage Timeline.

(** C7: whatever the diary entries and mood labels are, the merged
    timeline holds exactly the records of both lists, ordered by
    timestamp descending; with both lists empty it is the empty
    sequence. *)
Theorem allEntries_sorted_descending
    (entries : list DiaryEntry) (todayLabels : list EmotionLabel) :
  StronglySorted (fun a b => (timestamp b <= timestamp a)%Z)
    (allEntries entries todayLabels)
  /\ Permutation (allEntries entries todayLabels)
       (map diary entries ++ map mood todayLabels)
  /\ allEntries [] [] = [].
Proof.
  split; [apply merge_sorted|].
  split; [apply merge_perm|reflexivity].
Qed.

(** C2: in the merged timeline a diary record and a mood-label record
    with equal timestamps always appear with the diary record first. *)
Theorem diary_precedes_mood_on_tie
    (entries : list DiaryEntry) (todayLabels : list EmotionLabel)
    (i j : nat) (d : DiaryEntry) (m : EmotionLabel) :
  nth_error (allEntries entries todayLabels) i = Some (diary d) ->
  nth_error (allEntries entries todayLabels) j = Some (mood m) ->
  created_at d = label_timestamp m ->
  (i < j)%nat.
Proof.
  intros Hi Hj Heq.
  pose proof (Array_sort_tie_rule (spread_diaries_first entries todayLabels)) as Hs.
  fold (merge (map diary entries) (map mood todayLabels)) in Hs.
  fold (allEntries entries todayLabels) in Hs.
  destruct (Nat.lt_trichotomy i j) as [Hlt|[->|Hgt]]; [exact Hlt| |].
  - rewrite Hi in Hj. discriminate.
  - destruct (StronglySorted_nth_error Hs Hgt Hj Hi) as [_ Htie].
    simpl in Htie. specialize (Htie (eq_sym Heq) eq_refl). discriminate.
Qed.

Lemma diary_precedes_mood_on_tie_witness :
  nth_error (allEntries [entry_at 3; entry_at 5] [label_at 5; label_at 9]) 1
    = Some (diary (entry_at 5))
  /\ nth_error (allEntries [entry_at 3; entry_at 5] [label_at 5; label_at 9]) 2
    = Some (mood (label_at 5))
  /\ (1 < 2)%nat.
Proof.
  assert (H1 : nth_error (allEntries [entry_at 3; entry_at 5] [label_at 5; label_at 9]) 1
               = Some (diary (entry_at 5))) by reflexivity.
  assert (H2 : nth_error (allEntries [entry_at 3; entry_at 5] [label_at 5; label_at 9]) 2
               = Some (mood (label_at 5))) by reflexivity.
  split; [exact H1|]. split; [exact H2|].
  exact (diary_precedes_mood_on_tie _ _ _ _ H1 H2 eq_refl).
Defined.

(** C8: for record lists A and B that share no timestamp, merging A with
    B gives the same sequence as merging B with A. *)
Theorem merge_commutes_without_shared_timestamps (A B : list Item) :
  (forall a b, In a A -> In b B -> timestamp a <> timestamp b) ->
  merge A B = merge B A.
Proof.
  unfold merge. induction A as [|a A IH]; intros Hne; simpl.
  - now rewrite app_nil_r.
  - rewrite Array_sort_move_in by (intros b Hb; apply Hne; [now left|exact Hb]).
    f_equal. apply IH. intros x b Hx Hb. apply Hne; [now right|exact Hb].
Qed.

Lemma merge_commutes_without_shared_timestamps_witness :
  merge [diary (entry_at 7); diary (entry_at 3)] [mood (label_at 9); mood (label_at 5)]
  = merge [mood (label_at 9); mood (label_at 5)] [diary (entry_at 7); diary (entry_at 3)].
Proof.
  apply merge_commutes_without_shared_timestamps.
  intros a b [<-|[<-|[]]] [<-|[<-|[]]]; simpl; lia.
Defined.

(** With a shared instant the order of the arguments shows: the stable
    sort keeps the records of that instant in array order. *)
Example merge_shared_timestamp :
  merge [diary (entry_at 5)] [mood (label_at 5)]
    = [diary (entry_at 5); mood (label_at 5)]
  /\ merge [mood (label_at 5)] [diary (entry_at 5)]
    = [mood (label_at 5); diary (entry_at 5)].
Proof. split; reflexivity. Qed.

End TimelineClaims.

(** ** The ranked probabilities (RealtimePage) *)

Section RankingFacts.
Import RealtimePage Ranking.

Lemma highest_first_in_order (x y : string * Q) :
  in_order highest_first x y <-> (snd y <= snd x)%Q.
Proof.
  unfold in_order, highest_first, positive, Q_Number.
  rewrite negb_false_iff, Qle_bool_iff. split; intros; lra.
Qed.

Lemma highest_first_swap (x y : string * Q) :
  positive (highest_first x y) = true <-> (snd x < snd y)%Q.
Proof.
  unfold highest_first, positive, Q_Number.
  rewrite negb_true_iff, <- not_true_iff_false, Qle_bool_iff.
  split; intros; lra.
Qed.

Lemma sorted_highest_first (probabilities : Dict Q) :
  StronglySorted (fun x y => (snd y <= snd x)%Q)
    (Array_sort highest_first probabilities).
Proof.
  apply StronglySorted_weaken with (R := in_order highest_first).
  - intros x y. apply highest_first_in_order.
  - apply Array_sort_sorted.
    + intros x y Hxy. apply highest_first_swap in Hxy.
      apply highest_first_in_order. lra.
    + intros x y z Hxy Hyz.
      apply highest_first_in_order in Hxy, Hyz.
      apply highest_first_in_order. lra.
Qed.

Lemma ties_keep_key_order (p : Q) (probabilities : Dict Q) :
  filter (has_probability p) (Array_sort highest_first probabilities)
  = filter (has_probability p) probabilities.
Proof.
  apply Array_sort_filter. intros x y Hx Hxy.
  apply highest_first_swap in Hxy.
  unfold has_probability in *. apply Qeq_bool_iff in Hx.
  apply not_true_iff_false. rewrite Qeq_bool_iff. lra.
Qed.

(** C5: the ranker returns the first K entries of the distribution
    arranged by probability descending, entries of equal probability
    keeping their key order; on {a:0.5, b:0.5, c:0.1} with K = 2 that is
    [a, b]. *)
Theorem rankedPredictions_top_k (k : nat) (probabilities : Dict Q) :
  let ranked := rankedPredictions (Z.of_nat k) probabilities in
  (exists rest,
     Permutation (ranked ++ rest) probabilities
     /\ StronglySorted (fun x y => (snd y <= snd x)%Q) (ranked ++ rest)
     /\ forall p, filter (has_probability p) (ranked ++ rest)
                  = filter (has_probability p) probabilities)
  /\ List.length ranked = Nat.min k (List.length probabilities)
  /\ rankedPredictions 2 tied_distribution = [("a"%string, 0.5%Q); ("b"%string, 0.5%Q)].
Proof.
  unfold rankedPredictions. rewrite Array_slice_prefix.
  split; [|split].
  - exists (skipn k (Array_sort highest_first probabilities)).
    rewrite firstn_skipn. split; [apply Array_sort_perm|].
    split; [apply sorted_highest_first|]. intros p. apply ties_keep_key_order.
  - rewrite length_firstn.
    now rewrite (Permutation_length (Array_sort_perm highest_first probabilities)).
  - reflexivity.
Qed.

(** What the page shows for the same distribution: all three entries. *)
Example shownProbabilities_tied :
  shownProbabilities
    {| emotion := "a"; confidence := 0.5; probabilities := tied_distribution;
       prediction_timestamp := 0 |}
  = [("a"%string, 0.5%Q); ("b"%string, 0.5%Q); ("c"%string, 0.1%Q)].
Proof. reflexivity. Qed.

End RankingFacts.

(** ** The heart-rate window (RealtimePage) *)

Section WindowFacts.
Import RealtimePage Window.

Lemma Forall_skipn {A : Type} (P : A -> Prop) (n : nat) (l : list A) :
  Forall P l -> Forall P (skipn n l).
Proof.
  revert l. induction n as [|n IH]; intros l Hl; [exact Hl|].
  destruct Hl; simpl; [constructor|now apply IH].
Qed.

Lemma appendHr_last20 (now : string) (v : float) (w : list HrPoint) :
  appendHr now v w
  = skipn (List.length w + 1 - 20) (w ++ [{| time := now; value := v |}]).
Proof.
  unfold appendHr. rewrite Array_slice_last20.
  now rewrite length_app.
Qed.

(** What [loadData] does to the window is [push]. *)
Lemma hrHistory_fulfilled (now : string) (latest : option WatchData)
    (pred : EmotionPrediction) (s : State) :
  hrHistory (loadData_fulfilled now latest pred s) = push (hrHistory s) now latest.
Proof.
  unfold loadData_fulfilled, push.
  destruct (optional_heart_rate latest) as [v|]; [|reflexivity].
  destruct (truthy v); reflexivity.
Qed.


Lemma push_absent (w : list HrPoint) (now : string) (latest : option WatchData) :
  truthy_opt (optional_heart_rate latest) = false -> push w now latest = w.
Proof.
  unfold push. destruct (optional_heart_rate latest) as [v|]; simpl; [|reflexivity].
  now intros ->.
Qed.

Lemma push_bounded (w : list HrPoint) (now : string) (latest : option WatchData) :
  (List.length w <= 20)%nat -> (List.length (push w now latest) <= 20)%nat.
Proof.
  intros Hw. unfold push.
  destruct (optional_heart_rate latest) as [v|]; [|exact Hw].
  destruct (truthy v); [|exact Hw].
  rewrite appendHr_last20, length_skipn, length_app. simpl. lia.
Qed.

Lemma push_nonzero (w : list HrPoint) (now : string) (latest : option WatchData) :
  Forall (fun pt => PrimFloat.eqb (value pt) 0 = false) w ->
  Forall (fun pt => PrimFloat.eqb (value pt) 0 = false) (push w now latest).
Proof.
  intros Hw. unfold push.
  destruct (optional_heart_rate latest) as [v|]; [|exact Hw].
  destruct (truthy v) eqn:Hv; [|exact Hw].
  rewrite appendHr_last20. apply Forall_skipn, Forall_app. split; [exact Hw|].
  constructor; [|constructor]. simpl.
  unfold truthy in Hv. apply negb_true_iff, orb_false_iff in Hv. tauto.
Qed.

(** An invariant of the window alone holds along every run of the
    polling loop. *)
Lemma window_invariant (P : list HrPoint -> Prop) :
  P [] ->
  (forall w now latest, P w -> P (push w now latest)) ->
  forall es, P (hrHistory (page (run start es))).
Proof.
  intros Hnil Hpush es. unfold run.
  assert (Hstart : P (hrHistory (page start))) by exact Hnil.
  revert Hstart. generalize start as l.
  induction es as [|e es IH]; intros l Hl; simpl; [exact Hl|].
  apply IH. destruct e; cbn [step].
  - exact Hnil.
  - destruct (timer l); exact Hl.
  - exact Hl.
  - unfold settle. destruct (existsb _ _); [|exact Hl].
    cbn [page]. rewrite hrHistory_fulfilled. now apply Hpush.
  - unfold settle. destruct (existsb _ _); exact Hl.
  - destruct (timer l); exact Hl.
Qed.

(** Trimming to the last twenty before appending changes nothing once
    the result is trimmed again. *)
Lemma trim_app_trim {A : Type} (a b : list A) :
  let a' := skipn (List.length a - 20) a in
  skipn (List.length (a' ++ b) - 20) (a' ++ b)
  = skipn (List.length (a ++ b) - 20) (a ++ b).
Proof.
  cbv zeta. set (k := (List.length a - 20)%nat).
  assert (Happ : skipn k a ++ b = skipn k (a ++ b)).
  { rewrite skipn_app. replace (k - List.length a)%nat with 0%nat by lia.
    reflexivity. }
  rewrite Happ, skipn_skipn, length_skipn, length_app.
  f_equal. lia.
Qed.


End WindowFacts.

Section WindowClaims.
Import RealtimePage Window.




(** C9: a poll result without a heart rate (no record, or a record whose
    heart_rate is absent) leaves the window exactly as it was. *)
Theorem absent_heart_rate_leaves_window
    (s : State) (w : list HrPoint) (now : string)
    (latest : option WatchData) (pred : EmotionPrediction) :
  optional_heart_rate latest = None ->
  hrHistory (loadData_fulfilled now latest pred s) = hrHistory s
  /\ push w now latest = w.
Proof.
  intros Habs. rewrite hrHistory_fulfilled.
  split; apply push_absent; now rewrite Habs.
Qed.

Lemma absent_heart_rate_leaves_window_witness :
  let s := loadData_fulfilled "12:00:00" (Some (reading (Some 60%float)))
             calm_prediction initial in
  hrHistory s = [{| time := "12:00:00"; value := 60 |}]
  /\ hrHistory (loadData_fulfilled "12:00:10" (Some (reading None)) calm_prediction s)
     = hrHistory s
  /\ push (hrHistory s) "12:00:10" (Some (reading None)) = hrHistory s.
Proof.
  split; [reflexivity|].
  exact (@absent_heart_rate_leaves_window _ _ "12:00:10"%string
           (Some (reading None)) calm_prediction eq_refl).
Defined.

(** C10: a reading whose heart rate is present but equal to 0 is dropped
    like an absent one, so no point of the window ever has the value 0. *)
Theorem zero_heart_rate_dropped
    (s : State) (now : string) (d : WatchData) (v : float)
    (pred : EmotionPrediction) (es : list Event) :
  (heart_rate d = Some v -> PrimFloat.eqb v 0 = true ->
   hrHistory (loadData_fulfilled now (Some d) pred s) = hrHistory s)
  /\ Forall (fun pt => PrimFloat.eqb (value pt) 0 = false)
       (hrHistory (page (run start es))).
Proof.
  split.
  - intros Hd Hv. rewrite hrHistory_fulfilled. apply push_absent.
    simpl. rewrite Hd. simpl. unfold truthy. now rewrite Hv.
  - apply (window_invariant (Forall (fun pt => PrimFloat.eqb (value pt) 0 = false))).
    + constructor.
    + intros w now' latest. apply push_nonzero.
Qed.

Lemma zero_heart_rate_dropped_witness :
  let s := loadData_fulfilled "12:00:00" (Some (reading (Some 60%float)))
             calm_prediction initial in
  hrHistory (loadData_fulfilled "12:00:10" (Some (reading (Some 0%float)))
               calm_prediction s)
  = hrHistory s.
Proof.
  exact (proj1 (zero_heart_rate_dropped _ "12:00:10"%string (reading (Some 0%float))
                  0%float calm_prediction []) eq_refl eq_refl).
Defined.

Example twenty_one_polls_first_point :
  hd_error (pushes [] twenty_one_polls)
  = Some {| time := "12:00:10"; value := 61 |}.
Proof. reflexivity. Qed.

End WindowClaims.

(** ** The polling loop (RealtimePage) *)

Section PollingClaims.
Import RealtimePage Window.

Lemma settle_pending (call : nat) (k : State -> State) (l : Loop) :
  In call (pending l) -> page (settle call k l) = k (page l).
Proof.
  intros Hin. unfold settle.
  replace (existsb (Nat.eqb call) (pending l)) with true; [reflexivity|].
  symmetry. apply existsb_exists. exists call. split; [exact Hin|].
  apply Nat.eqb_refl.
Qed.







(** After an unmount the same response changes nothing. *)
Example unmounted_view_ignores_late_response :
  let stopped := run start [Mount; Cleanup] in
  detached stopped = [0%nat]
  /\ page (step stopped (Fulfilled 0 "12:00:03" (Some (reading (Some 72%float)))
                           calm_prediction))
     = page stopped.
Proof. cbv zeta. split; reflexivity. Qed.

End PollingClaims.

(** ** The chart adapters (StatsPage) *)

Section ChartClaims.
Import StatsPage Charts.

(** C6: the monthly adapter yields one row per entry of
    emotion_patterns, in the order of the mapping, each carrying the
    emotion and its fraction times 100; {x: 0.25, y: 0.75} gives the rows
    (x, 25), (y, 75). *)
Theorem prepareMonthlyChartData_rows (stats : MonthlyStats) (i : nat) :
  List.length (prepareMonthlyChartData (Some stats))
  = List.length (emotion_patterns stats)
  /\ nth_error (prepareMonthlyChartData (Some stats)) i
     = option_map
         (fun entry => {| bar_emotion := fst entry;
                          percentage := (snd entry * 100)%float |})
         (nth_error (emotion_patterns stats) i)
  /\ prepareMonthlyChartData
       (Some (month_with [("x"%string, 0.25%float); ("y"%string, 0.75%float)]))
     = [ {| bar_emotion := "x"; percentage := 25 |};
         {| bar_emotion := "y"; percentage := 75 |} ].
Proof.
  split; [apply length_map|]. split; [|reflexivity].
  simpl. rewrite nth_error_map.
  destruct (nth_error (emotion_patterns stats) i) as [[emotion fraction]|];
    reflexivity.
Qed.

Lemma find_cell_fill {R : Type} (row : string * float -> R) (key : R -> string)
    (emotion : string) (d : Dict float) (k : nat) :
  (forall entry, key (row entry) = fst entry) ->
  option_map snd
    (find (fun c => String.eqb (key (fst c)) emotion)
       (combine (map row d) (map fill (seq k (List.length (map row d))))))
  = option_map (fun i => fill (k + i)) (index_of emotion d).
Proof.
  intros Hkey. revert k. induction d as [|[e v] d IH]; intros k; [reflexivity|].
  simpl. rewrite Hkey. simpl.
  destruct (String.eqb e emotion).
  - simpl. now rewrite Nat.add_0_r.
  - rewrite IH. destruct (index_of emotion d) as [i|]; simpl; [|reflexivity].
    do 2 f_equal. lia.
Qed.

Lemma dailyColor_by_index (stats : DailyStats) (emotion : string) :
  dailyColor (Some stats) emotion
  = option_map fill (index_of emotion (emotion_distribution stats)).
Proof.
  unfold dailyColor, dailyCells, cells, prepareDailyChartData.
  rewrite (find_cell_fill _ slice_emotion) by (intros [e v]; reflexivity).
  now destruct (index_of emotion (emotion_distribution stats)).
Qed.

Lemma monthlyColor_by_index (stats : MonthlyStats) (emotion : string) :
  monthlyColor (Some stats) emotion
  = option_map fill (index_of emotion (emotion_patterns stats)).
Proof.
  unfold monthlyColor, monthlyCells, cells, prepareMonthlyChartData.
  rewrite (find_cell_fill _ bar_emotion) by (intros [e v]; reflexivity).
  now destruct (index_of emotion (emotion_patterns stats)).
Qed.

(** C3, as the code has it: the fill of a cell is a function of the
    position of its row, COLORS[index mod 6].  An emotion has the same
    color in two aggregates when it stands at the same position modulo 6
    in both, whatever the counts are. *)
Theorem cell_fill_by_position
    (day1 day2 : DailyStats) (month1 month2 : MonthlyStats)
    (emotion : string) (i j : nat) :
  (i mod 6 = j mod 6)%nat ->
  (index_of emotion (emotion_distribution day1) = Some i ->
   index_of emotion (emotion_distribution day2) = Some j ->
   dailyColor (Some day1) emotion = Some (nth (i mod 6) COLORS ""%string)
   /\ dailyColor (Some day2) emotion = dailyColor (Some day1) emotion)
  /\ (index_of emotion (emotion_patterns month1) = Some i ->
      index_of emotion (emotion_patterns month2) = Some j ->
      monthlyColor (Some month1) emotion = Some (nth (i mod 6) COLORS ""%string)
      /\ monthlyColor (Some month2) emotion = monthlyColor (Some month1) emotion).
Proof.
  intros Hmod. split; intros Hi Hj.
  - rewrite !dailyColor_by_index, Hi, Hj. unfold fill. simpl List.length.
    cbn [option_map]. now rewrite Hmod.
  - rewrite !monthlyColor_by_index, Hi, Hj. unfold fill. simpl List.length.
    cbn [option_map]. now rewrite Hmod.
Qed.

Lemma cell_fill_by_position_witness :
  dailyColor (Some (day_with [("joy"%string, 2%float); ("sad"%string, 1%float)]))
    "sad" = Some "#34C759"%string
  /\ dailyColor (Some (day_with [("calm"%string, 5%float); ("sad"%string, 4%float)]))
       "sad"
     = dailyColor (Some (day_with [("joy"%string, 2%float); ("sad"%string, 1%float)]))
         "sad".
Proof.
  exact (proj1 (@cell_fill_by_position
                  (day_with [("joy"%string, 2%float); ("sad"%string, 1%float)])
                  (day_with [("calm"%string, 5%float); ("sad"%string, 4%float)])
                  (month_with []) (month_with []) "sad"%string 1 1 eq_refl)
           eq_refl eq_refl).
Defined.

(** C3, as the specification words it, fails: "sad" is drawn in the
    second color when "joy" precedes it and in the first color when it
    is alone. *)
Lemma color_depends_on_position :
  let together := day_with [("joy"%string, 2%float); ("sad"%string, 1%float)] in
  let alone := day_with [("sad"%string, 1%float)] in
  dailyColor (Some together) "sad" = Some "#34C759"%string
  /\ dailyColor (Some alone) "sad" = Some "#007AFF"%string
  /\ dailyColor (Some together) "sad" <> dailyColor (Some alone) "sad".
Proof.
  cbv zeta. split; [reflexivity|]. split; [reflexivity|]. discriminate.
Qed.

End ChartClaims.

(** * Further properties *)

(** ** More on [Array.prototype.sort] *)

Section SortMore.
Context {A N : Type} `{Number N}.
Variable comparefn : A -> A -> N.

Lemma insert_in_front (x : A) (l : list A) :
  Forall (in_order comparefn x) l -> insert comparefn x l = x :: l.
Proof.
  intros Hx. destruct Hx as [|y l Hxy _]; [reflexivity|].
  simpl. unfold in_order in Hxy. now rewrite Hxy.
Qed.

(** An array that is already in order is returned as it is. *)
Lemma Array_sort_in_order (l : list A) :
  StronglySorted (in_order comparefn) l -> Array_sort comparefn l = l.
Proof.
  induction 1 as [|x l Hs IH Hx]; simpl; [reflexivity|].
  rewrite IH. now apply insert_in_front.
Qed.

End SortMore.

Lemma NoDup_map_of {A B C : Type} (f : A -> B) (g : A -> C) (l : list A) :
  (forall x y, In x l -> In y l -> f x = f y -> g x = g y) ->
  NoDup (map g l) -> NoDup (map f l).
Proof.
  induction l as [|x l IH]; intros Hfg Hg; simpl; [constructor|].
  inversion Hg as [|? ? Hx Hl]; subst. constructor.
  - intros Hin. apply Hx. apply in_map_iff in Hin.
    destruct Hin as [y [Hy Hyl]]. apply in_map_iff. exists y.
    split; [|exact Hyl]. symmetry. apply Hfg; [now left|now right|auto].
  - apply IH; [|exact Hl]. intros a b Ha Hb. apply Hfg; now right.
Qed.

(** ** The feed of DiaryPage *)

Section FeedFacts.
Import DiaryPage Timeline DiaryForms.

Lemma Array_sort_any_order (l l' : list Item) :
  Permutation l l' -> NoDup (map timestamp l) ->
  Array_sort newest_first l = Array_sort newest_first l'.
Proof.
  induction 1 as [|x l l' Hp IH|x y l|l l' l'' Hp1 IH1 Hp2 IH2]; intros Hnd.
  - reflexivity.
  - simpl in *. inversion Hnd; subst. now rewrite IH.
  - simpl in *. inversion Hnd as [|? ? Hy Hl]; subst.
    apply insert_newest_first_comm. intros Heq. apply Hy. left. congruence.
  - rewrite IH1 by exact Hnd. apply IH2.
    apply Permutation_NoDup with (l := map timestamp l); [|exact Hnd].
    now apply Permutation_map.
Qed.

Lemma Number_toString_inj (n m : Z) :
  Number_toString n = Number_toString m -> n = m.
Proof.
  unfold Number_toString. intros Heq.
  assert (Hi : Some (Z.to_int n) = Some (Z.to_int m)).
  { rewrite <- !NilEmpty.isi. now rewrite Heq. }
  injection Hi as Hi.
  rewrite <- (DecimalZ.of_to n), <- (DecimalZ.of_to m). now rewrite Hi.
Qed.

Lemma key_of_diary_mood (entry : DiaryEntry) (label : EmotionLabel) :
  key (diary entry) <> key (mood label).
Proof. simpl. discriminate. Qed.

End FeedFacts.

Section FeedProperties.
Import DiaryPage Timeline DiaryForms.

(** X1: a feed whose records already arrive newest first is shown as it
    arrives (diary entries, then mood labels), and sorting a merged feed
    once more changes nothing. *)
Theorem merge_keeps_descending_input (A B : list Item) :
  (StronglySorted (fun a b => (timestamp b <= timestamp a)%Z) (A ++ B) ->
   merge A B = A ++ B)
  /\ merge (merge A B) [] = merge A B.
Proof.
  assert (Hid : forall l,
             StronglySorted (fun a b => (timestamp b <= timestamp a)%Z) l ->
             Array_sort newest_first l = l).
  { intros l Hl. apply Array_sort_in_order.
    eapply StronglySorted_weaken; [|exact Hl].
    intros x y. apply newest_first_in_order. }
  split.
  - intros Hs. now apply Hid.
  - unfold merge at 1. rewrite app_nil_r. apply Hid, merge_sorted.
Qed.

Lemma merge_keeps_descending_input_witness :
  merge [diary (entry_at 9); diary (entry_at 5)] [mood (label_at 5); mood (label_at 2)]
  = [diary (entry_at 9); diary (entry_at 5)] ++ [mood (label_at 5); mood (label_at 2)].
Proof.
  apply (proj1 (merge_keeps_descending_input
                  [diary (entry_at 9); diary (entry_at 5)]
                  [mood (label_at 5); mood (label_at 2)])).
  simpl. repeat (constructor; [|repeat (constructor; [simpl; lia|])]).
  all: try constructor.
Defined.

(** X2: when all records carry pairwise distinct timestamps, the feed
    does not depend on the order in which the two requests delivered
    them, nor on which list a record came in. *)
Theorem merge_ignores_arrival_order (A B A' B' : list Item) :
  Permutation (A ++ B) (A' ++ B') ->
  NoDup (map timestamp (A ++ B)) ->
  merge A B = merge A' B'.
Proof. intros Hp Hnd. unfold merge. now apply Array_sort_any_order. Qed.

Lemma merge_ignores_arrival_order_witness :
  merge [diary (entry_at 3); diary (entry_at 7)] [mood (label_at 5)]
  = merge [mood (label_at 5); diary (entry_at 7)] [diary (entry_at 3)].
Proof.
  apply merge_ignores_arrival_order.
  - simpl. eapply perm_trans; [apply perm_swap|]. eapply perm_trans.
    + apply perm_skip. apply perm_swap.
    + apply perm_swap.
  - simpl. repeat constructor; simpl; intuition lia.
Defined.



(** The entries are loaded while the request is in flight: the handler
    still holds the empty list it was made with, and the loaded entries
    leave the feed. *)
Example entries_loaded_during_the_request_are_dropped :
  let s := setEntries [entry_with 1 5; entry_with 2 3] initial in
  allEntries (entries s) [label_with 1 4]
    = [diary (entry_with 1 5); mood (label_with 1 4); diary (entry_with 2 3)]
  /\ allEntries (entries (handleDiarySubmit_created [] (entry_with 3 9) s))
       [label_with 1 4]
     = [diary (entry_with 3 9); mood (label_with 1 4)].
Proof. cbv zeta. split; reflexivity. Qed.

(** X4: when the ids of the diary entries are pairwise distinct and so
    are the ids of the mood labels, no two lines of the feed have the
    same React key, even if a diary entry and a mood label share an id. *)
Theorem feed_keys_distinct (entries : list DiaryEntry) (labels : list EmotionLabel) :
  NoDup (map entry_id entries) ->
  NoDup (map label_id labels) ->
  NoDup (map key (allEntries entries labels)).
Proof.
  intros He Hl.
  apply Permutation_NoDup
    with (l := map key (map diary entries ++ map mood labels)).
  { apply Permutation_map. symmetry. apply merge_perm. }
  rewrite map_app, !map_map. apply NoDup_app.
  - apply NoDup_map_of with (g := entry_id); [|exact He].
    intros x y _ _ Hk. simpl in Hk. injection Hk as Hk.
    now apply Number_toString_inj.
  - apply NoDup_map_of with (g := label_id); [|exact Hl].
    intros x y _ _ Hk. simpl in Hk. injection Hk as Hk.
    now apply Number_toString_inj.
  - intros k Hd Hm. apply in_map_iff in Hd, Hm.
    destruct Hd as [e [<- _]]. destruct Hm as [m [Hm _]].
    apply (@key_of_diary_mood e m). now symmetry.
Qed.

Lemma feed_keys_distinct_witness :
  NoDup (map key (allEntries [entry_with 1 3; entry_with 2 5] [label_with 1 5])).
Proof.
  apply feed_keys_distinct.
  - simpl. repeat constructor; simpl; intuition lia.
  - simpl. repeat constructor; simpl; tauto.
Defined.

End FeedProperties.

(** ** The two forms of DiaryPage *)

Section FormProperties.
Import DiaryForms.
Variable trim : string -> string.

Lemma nonempty_false (s : string) : nonempty s = false <-> s = ""%string.
Proof. unfold nonempty. rewrite negb_false_iff. apply String.eqb_eq. Qed.

Lemma nonempty_true (s : string) : nonempty s = true <-> s <> ""%string.
Proof. unfold nonempty. rewrite negb_true_iff. apply String.eqb_neq. Qed.

(** X5: the diary form sends nothing when the trimmed text is empty or
    a submission is in flight; otherwise it sends the trimmed text,
    which is not empty, keeps the entries and the typed text, and until
    that request settles a further submission sends nothing. *)
Theorem diary_submit_guard (s : State) :
  (fst (handleDiarySubmit_begin trim s) = None
   <-> trim (inputValue s) = ""%string \/ loading s = true)
  /\ forall content s',
       handleDiarySubmit_begin trim s = (Some content, s') ->
       content = trim (inputValue s) /\ content <> ""%string
       /\ entries s' = entries s /\ inputValue s' = inputValue s
       /\ handleDiarySubmit_begin trim s' = (None, s').
Proof.
  unfold handleDiarySubmit_begin.
  destruct (nonempty (trim (inputValue s))) eqn:Hne, (loading s) eqn:Hl; simpl.
  - split; [split; auto|]. intros ? ? [=].
  - split.
    + split; [discriminate|]. intros [He|]; [|discriminate].
      apply nonempty_true in Hne. contradiction.
    + intros content s' [= <- <-]. simpl. rewrite Hne. simpl.
      apply nonempty_true in Hne. repeat split; auto.
  - split; [split; auto|]. intros ? ? [=].
  - split; [|intros ? ? [=]]. split; auto. intros _. left.
    now apply nonempty_false.
Qed.

(** X6: the mood form sends a label only for a selected, non-empty
    emotion and when no submission is in flight, and then only marks the
    submission as in flight.  The label carries that emotion, a tenth of
    the slider position, and as its note the trimmed note when that is
    not empty and no note otherwise, never an empty one.  Once the label
    is created the form is back to no emotion, position 5 and an empty
    note, so submitting again sends nothing, whether or not today's
    labels could be reloaded; the labels are the reloaded ones, or the
    previous ones when the reload failed.  Every slider position gives
    an intensity in (0, 1]. *)
Theorem mood_submit_request
    (s s' : State) (request : LabelRequest) (labels : option (list EmotionLabel)) :
  handleMoodSubmit_begin trim s = (Some request, s') ->
  (selectedEmotion s = Some (request_emotion request)
   /\ request_emotion request <> ""%string
   /\ moodLoading s = false
   /\ request_intensity request = (intensity s / 10)%float
   /\ request_note request
      = (if String.eqb (trim (note s)) "" then None else Some (trim (note s)))
   /\ request_note request <> Some ""%string
   /\ (request_note request = None <-> trim (note s) = ""%string)
   /\ s' = setMoodLoading true s)
  /\ (let s'' := handleMoodSubmit_done labels s' in
      fst (handleMoodSubmit_begin trim s'') = None
      /\ selectedEmotion s'' = None /\ intensity s'' = 5%float
      /\ note s'' = ""%string /\ moodLoading s'' = false
      /\ entries s'' = entries s
      /\ inputValue s'' = inputValue s /\ loading s'' = loading s
      /\ todayLabels s'' = match labels with
                           | Some reloaded => reloaded
                           | None => todayLabels s
                           end)
  /\ Forall (fun position =>
               (PrimFloat.ltb 0 (position / 10) && PrimFloat.leb (position / 10) 1)%float
               = true) slider_positions.
Proof.
  unfold handleMoodSubmit_begin.
  destruct (selectedEmotion s) as [emotion|] eqn:Hsel; [|discriminate].
  destruct (nonempty emotion) eqn:Hne; [|discriminate].
  destruct (moodLoading s) eqn:Hml; [discriminate|]. simpl.
  intros [= <- <-]. simpl. split; [|split].
  - apply nonempty_true in Hne. unfold nonempty.
    destruct (String.eqb (trim (note s)) "") eqn:Hn; simpl.
    + apply String.eqb_eq in Hn. repeat split; auto; discriminate.
    + apply String.eqb_neq in Hn. repeat split; auto; try discriminate.
      * congruence.
      * intros Hn'. contradiction.
  - destruct labels; repeat split; reflexivity.
  - unfold slider_positions. repeat (constructor; [reflexivity|]). constructor.
Qed.

End FormProperties.

Lemma diary_submit_guard_witness :
  let s := DiaryForms.setInputValue "walked home" DiaryForms.initial in
  let s' := DiaryForms.setLoading true s in
  DiaryForms.handleDiarySubmit_begin (fun x => x) s = (Some "walked home"%string, s')
  /\ DiaryForms.handleDiarySubmit_begin (fun x => x) s' = (None, s').
Proof.
  cbv zeta.
  assert (H : DiaryForms.handleDiarySubmit_begin (fun x => x)
                (DiaryForms.setInputValue "walked home" DiaryForms.initial)
              = (Some "walked home"%string,
                 DiaryForms.setLoading true
                   (DiaryForms.setInputValue "walked home" DiaryForms.initial)))
    by reflexivity.
  split; [exact H|].
  exact (proj2 (proj2 (proj2 (proj2
           (proj2 (diary_submit_guard (fun x => x) _) _ _ H))))).
Defined.

Lemma mood_submit_request_witness :
  let s := DiaryForms.setSelectedEmotion (Some "joy"%string) DiaryForms.initial in
  fst (DiaryForms.handleMoodSubmit_begin (fun x => x)
         (DiaryForms.handleMoodSubmit_done None (DiaryForms.setMoodLoading true s)))
  = None.
Proof.
  cbv zeta.
  exact (proj1 (proj1 (proj2
           (@mood_submit_request (fun x => x)
              (DiaryForms.setSelectedEmotion (Some "joy"%string) DiaryForms.initial)
              _ _ None eq_refl)))).
Defined.

(** ** Runs of the polling loop of RealtimePage *)

Section LiveProperties.
Import RealtimePage Window Live.

(** X7: whatever the polls deliver, the window holds the points of the
    polls whose heart rate is truthy, in arrival order, cut down to the
    last 20 of them; polls without a heart rate leave no trace. *)
Theorem window_is_last_twenty_present
    (polls : list (string * option WatchData)) (w : list HrPoint) :
  (List.length w <= 20)%nat ->
  pushes w polls
  = skipn (List.length (w ++ present_points polls) - 20) (w ++ present_points polls)
  /\ List.length (pushes [] polls) = Nat.min (List.length (present_points polls)) 20.
Proof.
  assert (Hgen : forall polls w, (List.length w <= 20)%nat ->
            pushes w polls
            = skipn (List.length (w ++ present_points polls) - 20)
                (w ++ present_points polls)).
  { clear. induction polls as [|[now latest] polls IH]; intros w Hw.
    - simpl. rewrite app_nil_r.
      replace (List.length w - 20)%nat with 0%nat by lia. reflexivity.
    - change (pushes w ((now, latest) :: polls))
        with (pushes (push w now latest) polls).
      rewrite IH by (now apply push_bounded).
      unfold push. simpl present_points. simpl fst. simpl snd.
      destruct (optional_heart_rate latest) as [v|]; [|reflexivity].
      destruct (truthy v); [|reflexivity].
      rewrite appendHr_last20.
      replace (List.length w + 1 - 20)%nat
        with (List.length (w ++ [{| time := now; value := v |}]) - 20)%nat
        by (rewrite length_app; reflexivity).
      rewrite (trim_app_trim (w ++ [{| time := now; value := v |}])
                 (present_points polls)).
      now rewrite <- app_assoc. }
  intros Hw. split; [now apply Hgen|].
  rewrite Hgen by (simpl; lia). simpl app.
  rewrite length_skipn. lia.
Qed.

Lemma window_is_last_twenty_present_witness :
  pushes [] (("11:59:50"%string, Some (reading None))
             :: ("11:59:55"%string, None)
             :: twenty_one_polls)
  = skipn 1 (present_points twenty_one_polls).
Proof.
  exact (proj1 (@window_is_last_twenty_present
                  (("11:59:50"%string, Some (reading None))
                   :: ("11:59:55"%string, None) :: twenty_one_polls)
                  [] (Nat.le_0_l 20))).
Defined.

Lemma run_app (l : Loop) (es es' : list Event) :
  run l (es ++ es') = run (run l es) es'.
Proof. apply fold_left_app. Qed.

(** X8: ticks do not wait for earlier fetches.  While the interval is
    set, n ticks without any response in between start n further calls
    of loadData, all in flight at once beside those already pending,
    and change nothing on the page. *)
Theorem ticks_start_overlapping_fetches (l : Loop) (n : nat) :
  timer l = true ->
  pending (run l (repeat Tick n)) = pending l ++ seq (issued l) n
  /\ issued (run l (repeat Tick n)) = (issued l + n)%nat
  /\ page (run l (repeat Tick n)) = page l
  /\ timer (run l (repeat Tick n)) = true.
Proof.
  revert l. induction n as [|n IH]; intros l Hon.
  - simpl. rewrite app_nil_r, Nat.add_0_r. auto.
  - simpl repeat. change (run l (Tick :: repeat Tick n))
      with (run (step l Tick) (repeat Tick n)).
    assert (Hstep : step l Tick = call_loadData l) by (simpl; now rewrite Hon).
    rewrite Hstep.
    destruct (IH (call_loadData l) Hon) as [Hp [Hi [Hpg Ht]]].
    rewrite Hp, Hi, Hpg. simpl. rewrite <- app_assoc. simpl.
    repeat split; auto; lia.
Qed.

Lemma ticks_start_overlapping_fetches_witness :
  pending (run (step start Mount) (repeat Tick 3)) = [0; 1; 2; 3]%nat.
Proof.
  exact (proj1 (@ticks_start_overlapping_fetches (step start Mount) 3 eq_refl)).
Defined.

Lemma settle_other_pending (c c' : nat) (k : State -> State) (l : Loop) :
  c <> c' -> In c' (pending l) -> In c' (pending (settle c k l)).
Proof.
  intros Hne Hin. unfold settle. destruct (existsb _ _); [|exact Hin].
  simpl. apply filter_In. split; [exact Hin|].
  apply negb_true_iff. now apply Nat.eqb_neq.
Qed.

Lemma settle_gone (c : nat) (k : State -> State) (l : Loop) :
  ~ In c (pending (settle c k l)).
Proof.
  unfold settle. destruct (existsb (Nat.eqb c) (pending l)) eqn:Hex.
  - simpl. intros Hin. apply filter_In in Hin. destruct Hin as [_ Hc].
    now rewrite Nat.eqb_refl in Hc.
  - intros Hin. apply not_true_iff_false in Hex. apply Hex.
    apply existsb_exists. exists c. split; [exact Hin|apply Nat.eqb_refl].
Qed.

(** X9: of two fetches in flight at once, the one that resolves last
    determines latestData and prediction, whichever was issued first;
    the window receives both readings in the order of resolution. *)
Theorem last_response_wins
    (l : Loop) (c1 c2 : nat) (now1 now2 : string)
    (latest1 latest2 : option WatchData) (pred1 pred2 : EmotionPrediction) :
  c1 <> c2 -> In c1 (pending l) -> In c2 (pending l) ->
  let l' := run l [Fulfilled c1 now1 latest1 pred1; Fulfilled c2 now2 latest2 pred2] in
  latestData (page l') = latest2
  /\ prediction (page l') = Some pred2
  /\ hrHistory (page l') = push (push (hrHistory (page l)) now1 latest1) now2 latest2
  /\ ~ In c1 (pending l') /\ ~ In c2 (pending l').
Proof.
  intros Hne H1 H2. cbv zeta. simpl run.
  set (l1 := settle c1 (loadData_fulfilled now1 latest1 pred1) l).
  assert (H2' : In c2 (pending l1)) by (now apply settle_other_pending).
  assert (Hpage : page (settle c2 (loadData_fulfilled now2 latest2 pred2) l1)
                  = loadData_fulfilled now2 latest2 pred2 (page l1))
    by (now apply settle_pending).
  rewrite Hpage. rewrite hrHistory_fulfilled.
  unfold l1 at 3.
  rewrite (@settle_pending c1 (loadData_fulfilled now1 latest1 pred1) l H1),
    hrHistory_fulfilled.
  repeat split.
  - unfold loadData_fulfilled.
    destruct (optional_heart_rate latest2) as [v|]; [destruct (truthy v)|];
      reflexivity.
  - unfold loadData_fulfilled.
    destruct (optional_heart_rate latest2) as [v|]; [destruct (truthy v)|];
      reflexivity.
  - intros Hin. unfold settle in Hin at 1.
    destruct (existsb _ _) in Hin.
    + simpl in Hin. apply filter_In in Hin. destruct Hin as [Hin _].
      now apply (@settle_gone c1 (loadData_fulfilled now1 latest1 pred1) l).
    + now apply (@settle_gone c1 (loadData_fulfilled now1 latest1 pred1) l).
  - apply settle_gone.
Qed.

Lemma last_response_wins_witness :
  let l := run start [Mount; Tick] in
  let l' := run l [Fulfilled 1 "12:00:12" (Some (reading (Some 80%float))) calm_prediction;
                   Fulfilled 0 "12:00:14" (Some (reading (Some 60%float))) calm_prediction] in
  latestData (page l') = Some (reading (Some 60%float))
  /\ hrHistory (page l')
     = [{| time := "12:00:12"; value := 80 |}; {| time := "12:00:14"; value := 60 |}].
Proof.
  cbv zeta.
  pose proof (@last_response_wins (run start [Mount; Tick]) 1 0
                "12:00:12" "12:00:14"
                (Some (reading (Some 80%float))) (Some (reading (Some 60%float)))
                calm_prediction calm_prediction) as H.
  cbv zeta in H.
  destruct H as [H1 [_ [H3 _]]].
  - discriminate.
  - simpl. now right; left.
  - simpl. now left.
  - split; [exact H1|exact H3].
Defined.

End LiveProperties.

Section LoadingProperties.
Import RealtimePage Window Live.

Lemma loading_after_fulfilled (now : string) (latest : option WatchData)
    (pred : EmotionPrediction) (s : State) :
  loading (loadData_fulfilled now latest pred s) = false.
Proof.
  unfold loadData_fulfilled.
  destruct (optional_heart_rate latest) as [v|]; [destruct (truthy v)|];
    reflexivity.
Qed.

Lemma step_keeps_page (l : Loop) (e : Event) :
  page (step l e) = page l
  \/ page (step l e) = initial
  \/ loading (page (step l e)) = false.
Proof.
  destruct e; cbn [step].
  - right. now left.
  - left. now destruct (timer l).
  - now left.
  - unfold settle. destruct (existsb _ _); [|now left]. cbn [page].
    right. right. apply loading_after_fulfilled.
  - unfold settle. destruct (existsb _ _); [|now left]. right. now right.
  - left. now destruct (timer l).
Qed.

Lemma step_stays_loaded (l : Loop) (e : Event) :
  is_Mount e = false ->
  loading (page l) = false -> loading (page (step l e)) = false.
Proof.
  destruct e; try discriminate; intros _ Hl; cbn [step]; auto.
  - now destruct (timer l).
  - unfold settle. destruct (existsb _ _); [|exact Hl]. cbn [page].
    apply loading_after_fulfilled.
  - unfold settle. now destruct (existsb _ _).
  - now destruct (timer l).
Qed.

Lemma run_loading_initial (l : Loop) (es : list Event) :
  (loading (page l) = true -> page l = initial) ->
  loading (page (run l es)) = true -> page (run l es) = initial.
Proof.
  revert l. induction es as [|e es IH]; intros l Hl; [exact Hl|].
  simpl. apply IH. intros Hload.
  destruct (step_keeps_page l e) as [Hsame|[Hinit|Hfalse]].
  - rewrite Hsame in *. now apply Hl.
  - exact Hinit.
  - rewrite Hfalse in Hload. discriminate.
Qed.

(** X10: within the life of one view the page never goes back to
    loading.  In every run, as long as loading is true the page is in
    its initial state (no data, empty window); once a fetch of the view
    has settled, loading is false and stays false through every further
    event short of a new mount, however many polls are started.  A newly
    mounted view starts from loading again. *)
Theorem loading_only_before_first_response (es es' : list Event) :
  (loading (page (run start es)) = true -> page (run start es) = initial)
  /\ (existsb is_Mount es' = false ->
      loading (page (run start es)) = false ->
      loading (page (run start (es ++ es'))) = false)
  /\ page (run start (es ++ [Mount])) = initial.
Proof.
  split; [|split].
  - apply run_loading_initial. reflexivity.
  - rewrite run_app. generalize (run start es) as l.
    induction es' as [|e es' IH]; intros l Hes Hl; [exact Hl|].
    simpl in Hes. apply orb_false_iff in Hes. destruct Hes as [He Hes].
    simpl. apply IH; [exact Hes|]. now apply step_stays_loaded.
  - rewrite run_app. reflexivity.
Qed.

Lemma loading_only_before_first_response_witness :
  loading (page (run start ([Mount; Rejected 0] ++ [Tick; Replay; Tick]))) = false.
Proof.
  exact (proj1 (proj2 (loading_only_before_first_response
                         [Mount; Rejected 0] [Tick; Replay; Tick]))
           eq_refl eq_refl).
Defined.

Lemma step_keeps_data (l : Loop) (e : Event) :
  is_Tick_or_Rejected e = true ->
  latestData (page (step l e)) = latestData (page l)
  /\ prediction (page (step l e)) = prediction (page l)
  /\ hrHistory (page (step l e)) = hrHistory (page l).
Proof.
  destruct e; try discriminate; intros _; cbn [step]; auto.
  - destruct (timer l); auto.
  - unfold settle. destruct (existsb _ _); auto.
Qed.

(** X11: failures never cost data.  Along a run of a view that consists
    of ticks and rejected fetches only, latestData, prediction and the
    window stay exactly as they were. *)
Theorem failed_polls_keep_the_data (l : Loop) (es : list Event) :
  forallb is_Tick_or_Rejected es = true ->
  latestData (page (run l es)) = latestData (page l)
  /\ prediction (page (run l es)) = prediction (page l)
  /\ hrHistory (page (run l es)) = hrHistory (page l).
Proof.
  revert l. induction es as [|e es IH]; intros l Hes; [auto|].
  simpl in Hes. apply andb_true_iff in Hes. destruct Hes as [He Hes].
  destruct (step_keeps_data l e He) as [H1 [H2 H3]].
  destruct (IH (step l e) Hes) as [H1' [H2' H3']].
  simpl. repeat split; congruence.
Qed.

Lemma failed_polls_keep_the_data_witness :
  let l := run start [Mount; Fulfilled 0 "12:00:01" (Some (reading (Some 72%float)))
                               calm_prediction] in
  latestData (page (run l [Tick; Rejected 1; Tick; Rejected 2]))
    = Some (reading (Some 72%float))
  /\ prediction (page (run l [Tick; Rejected 1; Tick; Rejected 2]))
    = Some calm_prediction
  /\ hrHistory (page (run l [Tick; Rejected 1; Tick; Rejected 2]))
    = [{| time := "12:00:01"; value := 72 |}].
Proof.
  cbv zeta.
  exact (@failed_polls_keep_the_data
           (run start [Mount; Fulfilled 0 "12:00:01" (Some (reading (Some 72%float)))
                                 calm_prediction])
           [Tick; Rejected 1; Tick; Rejected 2] eq_refl).
Defined.

(** Entering the route again starts from nothing: the data of the
    previous view is not carried over. *)
Example remount_starts_over :
  page (run start [Mount;
                   Fulfilled 0 "12:00:01" (Some (reading (Some 72%float))) calm_prediction;
                   Cleanup; Mount])
  = initial.
Proof. reflexivity. Qed.

End LoadingProperties.

(** ** The charts of StatsPage *)

Section ChartProperties.
Import StatsPage Charts WeeklyChart.

Lemma COLORS_distinct : NoDup COLORS.
Proof. unfold COLORS. repeat constructor; simpl; intuition discriminate. Qed.

(** X12: a cell is always filled with one of the six palette colors,
    and two rows have the same color exactly when their positions are
    equal modulo 6: the first six rows are all told apart, the seventh
    repeats the first. *)
Theorem fill_cycles_through_palette (i j : nat) :
  In (fill i) COLORS
  /\ (fill i = fill j <-> (i mod 6 = j mod 6)%nat).
Proof.
  unfold fill. change (List.length COLORS) with 6%nat.
  assert (Hi : (i mod 6 < List.length COLORS)%nat)
    by (apply Nat.mod_upper_bound; discriminate).
  assert (Hj : (j mod 6 < List.length COLORS)%nat)
    by (apply Nat.mod_upper_bound; discriminate).
  split; [now apply nth_In|]. split.
  - intros Heq. apply (proj1 (NoDup_nth COLORS ""%string) COLORS_distinct); auto.
  - now intros ->.
Qed.

Lemma nth_error_cells_from {R : Type} (rows : list R) (k i : nat) :
  nth_error (combine rows (map fill (seq k (List.length rows)))) i
  = option_map (fun r => (r, fill (k + i))) (nth_error rows i).
Proof.
  revert k i. induction rows as [|r rows IH]; intros k i.
  - destruct i; reflexivity.
  - destruct i as [|i]; simpl.
    + now rewrite Nat.add_0_r.
    + rewrite IH. now replace (k + S i)%nat with (S k + i)%nat by lia.
Qed.

(** X14: the daily pie has one cell per entry of emotion_distribution,
    in the order of the mapping; the cell at position i shows that
    entry's emotion and count unchanged and is filled with
    COLORS[i mod 6].  Emotions missing from the mapping get no cell, and
    without statistics there is no cell at all. *)
Theorem dailyCells_follow_distribution (stats : DailyStats) (i : nat) :
  nth_error (dailyCells (Some stats)) i
  = option_map
      (fun entry => ({| slice_emotion := fst entry; count := snd entry |},
                     nth (i mod 6) COLORS ""%string))
      (nth_error (emotion_distribution stats) i)
  /\ List.length (dailyCells (Some stats)) = List.length (emotion_distribution stats)
  /\ (forall emotion,
        In emotion (map (fun c => slice_emotion (fst c)) (dailyCells (Some stats)))
        <-> In emotion (map fst (emotion_distribution stats)))
  /\ dailyCells None = [].
Proof.
  assert (Hnth : forall n,
             nth_error (dailyCells (Some stats)) n
             = option_map
                 (fun entry => ({| slice_emotion := fst entry; count := snd entry |},
                                nth (n mod 6) COLORS ""%string))
                 (nth_error (emotion_distribution stats) n)).
  { intros n. unfold dailyCells, cells, prepareDailyChartData.
    rewrite nth_error_cells_from, nth_error_map. simpl.
    destruct (nth_error (emotion_distribution stats) n) as [[e c]|]; reflexivity. }
  assert (Hlen : List.length (dailyCells (Some stats))
                 = List.length (emotion_distribution stats)).
  { unfold dailyCells, cells, prepareDailyChartData.
    rewrite length_combine, !length_map, length_seq. apply Nat.min_id. }
  split; [apply Hnth|]. split; [exact Hlen|]. split; [|reflexivity].
  intros emotion. split; intros Hin.
  - apply in_map_iff in Hin. destruct Hin as [[r c] [<- Hin]].
    apply In_nth_error in Hin. destruct Hin as [n Hn]. rewrite Hnth in Hn.
    destruct (nth_error (emotion_distribution stats) n) as [entry|] eqn:He;
      [|discriminate].
    injection Hn as <- _. simpl. apply in_map. eapply nth_error_In; eassumption.
  - apply in_map_iff in Hin. destruct Hin as [entry [<- Hin]].
    apply In_nth_error in Hin. destruct Hin as [n Hn].
    apply in_map_iff.
    exists ({| slice_emotion := fst entry; count := snd entry |},
            nth (n mod 6) COLORS ""%string).
    split; [reflexivity|]. apply nth_error_In with (n := n).
    rewrite Hnth, Hn. reflexivity.
Qed.

Lemma get_set_field (k k' : string) (v : Field) (row : Row) :
  get_field k (set_field k' v row)
  = if String.eqb k' k then Some v else get_field k row.
Proof.
  unfold get_field. induction row as [|[k0 v0] row IH]; simpl.
  - destruct (String.eqb k' k); reflexivity.
  - destruct (String.eqb k0 k') eqn:H0; simpl.
    + apply String.eqb_eq in H0. subst k0.
      destruct (String.eqb k' k); reflexivity.
    + destruct (String.eqb k0 k) eqn:H1; simpl.
      * apply String.eqb_eq in H1. subst k0.
        now rewrite String.eqb_sym, H0.
      * exact IH.
Qed.

Lemma get_spread (k : string) (distribution : Dict float) (row : Row) :
  NoDup (map fst distribution) ->
  get_field k (spread distribution row)
  = match lookup k distribution with
    | Some v => Some (Num v)
    | None => get_field k row
    end.
Proof.
  unfold spread, lookup. revert row.
  induction distribution as [|[k0 v0] d IH]; intros row Hnd; [reflexivity|].
  simpl in *. inversion Hnd as [|? ? Hk0 Hd]; subst.
  rewrite IH by exact Hd. rewrite get_set_field.
  destruct (String.eqb k0 k) eqn:H0; simpl; [|reflexivity].
  apply String.eqb_eq in H0. subst k0.
  destruct (find (fun kv => String.eqb (fst kv) k) d) as [[k1 v1]|] eqn:Hf;
    [|reflexivity].
  exfalso. apply Hk0. apply find_some in Hf. destruct Hf as [Hin Heq].
  simpl in Heq. apply String.eqb_eq in Heq. subst k1.
  apply in_map_iff. now exists (k, v1).
Qed.

(** X13: the weekly chart has one row per day of daily_stats, in order.
    In the row of a day, a key that is an emotion of that day's
    distribution holds that day's number for it; an emotion the day does
    not have is undefined, not zero; and the weekday label and the date
    are found under "day" and "date" unless the distribution has an
    entry of that very name, which then takes their place. *)
Theorem weekly_rows_spread_the_distribution
    (format_EEE : Z -> string) (stats : WeeklyStats) (i : nat)
    (stat : DailyStats) (k : string) :
  nth_error (daily_stats stats) i = Some stat ->
  NoDup (map fst (emotion_distribution stat)) ->
  List.length (prepareWeeklyChartData format_EEE (Some stats))
  = List.length (daily_stats stats)
  /\ exists row,
       nth_error (prepareWeeklyChartData format_EEE (Some stats)) i = Some row
       /\ get_field k row
          = match lookup k (emotion_distribution stat) with
            | Some v => Some (Num v)
            | None =>
                if String.eqb k "day" then Some (Text (format_EEE (date stat)))
                else if String.eqb k "date" then Some (Instant (date stat))
                else None
            end.
Proof.
  intros Hi Hnd. unfold prepareWeeklyChartData.
  split; [apply length_map|].
  rewrite nth_error_map, Hi. simpl. eexists. split; [reflexivity|].
  rewrite get_spread by exact Hnd.
  destruct (lookup k (emotion_distribution stat)); [reflexivity|].
  unfold get_field. cbn [find fst].
  rewrite (String.eqb_sym "day" k), (String.eqb_sym "date" k).
  destruct (String.eqb k "day"); [reflexivity|].
  destruct (String.eqb k "date"); reflexivity.
Qed.

Lemma weekly_rows_spread_the_distribution_witness :
  let monday := day_on 0 [("joy"%string, 2%float); ("sad"%string, 1%float)] in
  let tuesday := day_on 1 [("joy"%string, 4%float)] in
  exists row,
    nth_error (prepareWeeklyChartData (fun _ => "Tue"%string)
                 (Some (week_of [monday; tuesday]))) 1 = Some row
    /\ get_field "sad" row = None.
Proof.
  cbv zeta.
  exact (proj2 (@weekly_rows_spread_the_distribution (fun _ => "Tue"%string)
                  (week_of [day_on 0 [("joy"%string, 2%float); ("sad"%string, 1%float)];
                            day_on 1 [("joy"%string, 4%float)]])
                  1 (day_on 1 [("joy"%string, 4%float)]) "sad"%string eq_refl
                  (NoDup_cons _ (@in_nil _ _) (NoDup_nil _)))).
Defined.

End ChartProperties.

(** ** The ranking once more *)

Section RankingProperties.
Import RealtimePage Ranking.

Lemma StronglySorted_app_order {A : Type} (R : A -> A -> Prop) (a b : list A) :
  StronglySorted R (a ++ b) -> forall x y, In x a -> In y b -> R x y.
Proof.
  induction a as [|z a IH]; intros Hs x y Hx Hy; [contradiction|].
  simpl in Hs. inversion Hs as [|? ? Hs' Hz]; subst.
  destruct Hx as [<-|Hx].
  - rewrite Forall_forall in Hz. apply Hz, in_or_app. now right.
  - now apply IH.
Qed.

(** X18: the page shows at most three probabilities, each an entry of
    the prediction's distribution, and never passes over a likelier
    emotion: an entry with a strictly higher probability than a shown
    one is shown too.  With three entries or fewer all are shown. *)
Theorem shown_probabilities_are_the_likeliest (p : EmotionPrediction) :
  (List.length (shownProbabilities p) <= 3)%nat
  /\ (forall x, In x (shownProbabilities p) -> In x (probabilities p))
  /\ (forall x y, In x (shownProbabilities p) -> In y (probabilities p) ->
                  (snd x < snd y)%Q -> In y (shownProbabilities p))
  /\ ((List.length (probabilities p) <= 3)%nat ->
      Permutation (shownProbabilities p) (probabilities p)).
Proof.
  unfold shownProbabilities, rankedPredictions.
  rewrite (Array_slice_prefix 3).
  set (sorted := Array_sort highest_first (probabilities p)).
  assert (Hperm : Permutation sorted (probabilities p)) by apply Array_sort_perm.
  split; [apply firstn_le_length|]. split; [|split].
  - intros x Hx. apply (Permutation_in _ Hperm).
    rewrite <- (firstn_skipn 3 sorted). apply in_or_app. now left.
  - intros x y Hx Hy Hlt.
    apply (Permutation_in _ (Permutation_sym Hperm)) in Hy.
    rewrite <- (firstn_skipn 3 sorted) in Hy. apply in_app_or in Hy.
    destruct Hy as [Hy|Hy]; [exact Hy|]. exfalso.
    assert (Hs : StronglySorted (fun x y => (snd y <= snd x)%Q)
                   (firstn 3 sorted ++ skipn 3 sorted)).
    { rewrite firstn_skipn. apply sorted_highest_first. }
    pose proof (@StronglySorted_app_order _ _ _ _ Hs x y Hx Hy) as Hle.
    simpl in Hle. lra.
  - intros Hlen. rewrite firstn_all2; [exact Hperm|].
    now rewrite (Permutation_length Hperm).
Qed.

End RankingProperties.

(** ** The summary of HomePage *)

Section HomeProperties.
Import HomePage.

(** X15: after a successful load the summary holds the first five
    health records the server sent, in the server's order, or all of
    them when there are five or fewer; it never holds more than five. *)
Theorem healthData_first_five
    (stats : DailyStats) (health : list HealthData) (s : State) :
  healthData (loadData_fulfilled stats health s) = firstn 5 health
  /\ (List.length (healthData (loadData_fulfilled stats health s)) <= 5)%nat
  /\ ((List.length health <= 5)%nat ->
      healthData (loadData_fulfilled stats health s) = health)
  /\ healthData (loadData_rejected s) = healthData s.
Proof.
  simpl. rewrite (Array_slice_prefix 5).
  split; [reflexivity|]. split; [apply firstn_le_length|].
  split; [|reflexivity]. intros Hlen. now apply firstn_all2.
Qed.

End HomeProperties.

(** ** The polling of WatchPage *)

Section WatchProperties.
Import WatchPage.

(** What the cleanup of the mounted effect and the set intervals have to
    do with one another. *)
Lemma one_interval_step (l : Loop) (e : Event) :
  intervals l = match cleanup l with
                | Some interval => [(interval, period (page l))]
                | None => []
                end ->
  intervals (step l e) = match cleanup (step l e) with
                         | Some interval => [(interval, period (page (step l e)))]
                         | None => []
                         end.
Proof.
  intros Hinv. destruct e; cbn [step].
  - destruct (cleanup l) as [interval|] eqn:Hc; [|now rewrite Hc].
    destruct (Period_eqb p (period (page l))); [now rewrite Hc|].
    unfold run_effect, run_cleanup, setPeriod. cbn. rewrite Hc. cbn.
    rewrite Hinv. cbn. now rewrite Nat.eqb_refl.
  - destruct (find _ (intervals l)) as [[i p]|] eqn:Hf; [|exact Hinv].
    cbn. exact Hinv.
  - unfold run_cleanup. destruct (cleanup l) as [interval|] eqn:Hc;
      [|now rewrite Hc].
    cbn. rewrite Hinv. cbn. now rewrite Nat.eqb_refl.
  - unfold settle. destruct (existsb _ _); [|exact Hinv].
    cbn. exact Hinv.
  - unfold settle. destruct (existsb _ _); [|exact Hinv].
    cbn. exact Hinv.
Qed.

(** X16: however the user switches periods while the page polls, at
    most one interval is set at any time, and the loadData it calls is
    the one of the selected period: a tick requests the analytics of
    the period on display or, after the unmount, nothing.  The unmount
    leaves no interval behind. *)
Theorem one_schedule_for_the_selected_period (es : list Event) (interval : nat) :
  let l := run mounted es in
  (List.length (intervals l) <= 1)%nat
  /\ (forall i p, In (i, p) (intervals l) -> p = period (page l))
  /\ (step l (Tick interval) = l
      \/ step l (Tick interval) = call_loadData (period (page l)) l)
  /\ intervals (step l Unmount) = [].
Proof.
  cbv zeta.
  assert (Hinv : intervals (run mounted es)
                 = match cleanup (run mounted es) with
                   | Some i => [(i, period (page (run mounted es)))]
                   | None => []
                   end).
  { unfold run. assert (H0 : intervals mounted
                             = match cleanup mounted with
                               | Some i => [(i, period (page mounted))]
                               | None => []
                               end) by reflexivity.
    revert H0. generalize mounted as l.
    induction es as [|e es IH]; intros l Hl; [exact Hl|].
    simpl. apply IH. now apply one_interval_step. }
  set (l := run mounted es) in *.
  split; [|split; [|split]].
  - rewrite Hinv. destruct (cleanup l); simpl; lia.
  - intros i p Hin. rewrite Hinv in Hin.
    destruct (cleanup l); simpl in Hin; [|contradiction].
    destruct Hin as [[= _ <-]|[]]. reflexivity.
  - cbn [step]. rewrite Hinv.
    destruct (cleanup l) as [i|]; simpl; [|now left].
    destruct (Nat.eqb i interval); [now right|now left].
  - pose proof (one_interval_step l Unmount Hinv) as Hu.
    rewrite Hu. cbn [step]. unfold run_cleanup.
    destruct (cleanup l) eqn:Hc; [reflexivity|now rewrite Hc].
Qed.

End WatchProperties.

(** ** The intensity indicator of EmotionBadge *)

Section BadgeProperties.
Import EmotionBadge.
Variable Math_round : float -> float.

Lemma is_Lt (c : comparison) :
  match c with Lt => true | _ => false end = true <-> c = Lt.
Proof. destruct c; split; congruence. Qed.

Ltac literal x :=
  let v := fresh "v" in set (v := Prim2SF x); vm_compute in v; subst v.

(** [hi < b] implies [lo < b], for two literals [lo < hi], read off the
    specification of the comparison of doubles. *)
Ltac below hi lo :=
  rewrite !ltb_spec; literal hi; literal lo;
  match goal with
  | |- context [Prim2SF ?b] =>
      destruct (Prim2SF b) as [s|s| |s m e]; unfold SFltb, SFcompare;
      try (destruct s); try discriminate; try reflexivity
  end;
  rewrite !is_Lt;
  change (PosDef.Pos.compare_cont Eq) with Pos.compare;
  repeat match goal with
         | |- context [Z.compare ?a ?b] =>
             let H := fresh in destruct (Z.compare_spec a b) as [H|H|H]
         end;
  try discriminate; try reflexivity; try (exfalso; lia);
  rewrite !Pos.compare_lt_iff; lia.

Lemma below_1 (b : float) : PrimFloat.ltb 1 b = true -> PrimFloat.ltb 0 b = true.
Proof. below 1%float 0%float. Qed.

Lemma below_2 (b : float) : PrimFloat.ltb 2 b = true -> PrimFloat.ltb 1 b = true.
Proof. below 2%float 1%float. Qed.

Lemma below_3 (b : float) : PrimFloat.ltb 3 b = true -> PrimFloat.ltb 2 b = true.
Proof. below 3%float 2%float. Qed.

Lemma below_4 (b : float) : PrimFloat.ltb 4 b = true -> PrimFloat.ltb 3 b = true.
Proof. below 4%float 3%float. Qed.

(** X17: a badge without intensity has no indicator; with an intensity
    the indicator always has five bars, and the active bars are the
    leftmost ones, whatever Math.round returns: never a gap.  An
    intensity of 0 (or NaN) still draws the indicator, with no bar
    active. *)
Theorem indicator_lights_a_prefix (intensity : option float) :
  (indicator Math_round intensity = None <-> intensity = None)
  /\ (forall bars, indicator Math_round intensity = Some bars ->
        exists n, (n <= 5)%nat /\ bars = repeat true n ++ repeat false (5 - n))
  /\ (forall v, intensity = Some v -> truthy v = false ->
        indicator Math_round intensity = Some (repeat false 5)).
Proof.
  split; [|split].
  - destruct intensity; simpl; split; congruence.
  - intros bars. destruct intensity as [v|]; [|discriminate].
    unfold indicator, bar_indices. cbn [map].
    set (b := intensityBars Math_round (Some v)). intros [= <-].
    pose proof (@below_1 b) as H1. pose proof (@below_2 b) as H2.
    pose proof (@below_3 b) as H3. pose proof (@below_4 b) as H4.
    destruct (PrimFloat.ltb 4 b).
    { specialize (H4 eq_refl). specialize (H3 H4). specialize (H2 H3).
      specialize (H1 H2). rewrite H4, H3, H2, H1.
      exists 5%nat. split; [lia|reflexivity]. }
    clear H4. destruct (PrimFloat.ltb 3 b).
    { specialize (H3 eq_refl). specialize (H2 H3). specialize (H1 H2).
      rewrite H3, H2, H1. exists 4%nat. split; [lia|reflexivity]. }
    clear H3. destruct (PrimFloat.ltb 2 b).
    { specialize (H2 eq_refl). specialize (H1 H2). rewrite H2, H1.
      exists 3%nat. split; [lia|reflexivity]. }
    clear H2. destruct (PrimFloat.ltb 1 b).
    { specialize (H1 eq_refl). rewrite H1.
      exists 2%nat. split; [lia|reflexivity]. }
    clear H1. destruct (PrimFloat.ltb 0 b).
    { exists 1%nat. split; [lia|reflexivity]. }
    exists 0%nat. split; [lia|reflexivity].
  - intros v -> Hv. unfold indicator, intensityBars. now rewrite Hv.
Qed.

End BadgeProperties.

(** ** The lines of the weekly chart *)

Section WeeklyLineProperties.
Import StatsPage WeeklyChart.

(** X19: the weekly chart draws one line per key of emotion_trend, in
    the order of that mapping; the line at position i reads the row
    field named after its emotion and is stroked with COLORS[i mod 6].
    Emotions that occur only in a day's distribution get no line. *)
Theorem weeklyLines_follow_trend (stats : WeeklyStats) (i : nat) :
  nth_error (weeklyLines stats) i
  = option_map (fun entry => (fst entry, nth (i mod 6) COLORS ""%string))
      (nth_error (emotion_trend stats) i)
  /\ List.length (weeklyLines stats) = List.length (emotion_trend stats)
  /\ map fst (weeklyLines stats) = map fst (emotion_trend stats).
Proof.
  unfold weeklyLines, cells. split; [|split].
  - rewrite nth_error_cells_from, nth_error_map. simpl.
    destruct (nth_error (emotion_trend stats) i); reflexivity.
  - rewrite length_combine, !length_map, length_seq. apply Nat.min_id.
  - set (keys := map fst (emotion_trend stats)).
    assert (Hgen : forall k, map fst (combine keys (map fill (seq k (List.length keys))))
                             = keys).
    { induction keys as [|key keys IH]; intros k; [reflexivity|].
      simpl. now rewrite IH. }
    apply Hgen.
Qed.

End WeeklyLineProperties.
